(** * ADSBoostPipeline: the boost-factor scoring engine of [adsboost/app.py]

    A shallow embedding of the methods of [ADSBoostCelery] that compute
    boost factors, and the properties of the specification checked
    against them.

    Modelling conventions.
    - Python [float] and [int] values are exact rationals ([Q]); a division
      whose divisor is zero raises [ZeroDivisionError], as [/] does in
      Python for both types.
    - Python [str] values are [string]s of 8-bit characters; [lower] acts on
      the ASCII letters.
    - A [dict] is a [gmap]; [d[k]] on a missing key raises [KeyError],
      [d.get(k, v)] does not.
    - [None], or an absent key, is [None] of an [option].
    - A Python exception is a [Raise] of the [result] monad.
    - [datetime.now()] is an explicit argument [now]. *)

From Stdlib Require Import QArith Lqa ZArith Lia Ascii String.
From stdpp Require Import base option list sorting strings gmap fin_maps.

Local Open Scope string_scope.
Local Open Scope Z_scope.

(** ** Exceptions and results *)

Inductive pykey : Type :=
| KStr (s : string)
| KInt (z : Z).

Inductive exn : Type :=
| KeyError (key : pykey)
| ZeroDivisionError
| ValueError.

Inductive result (A : Type) : Type :=
| Ok (a : A)
| Raise (e : exn).
Arguments Ok {A} a.
Arguments Raise {A} e.

#[global] Instance result_ret : MRet result := fun A a => Ok a.
#[global] Instance result_bind : MBind result :=
  fun A B f m => match m with Ok a => f a | Raise e => Raise e end.

Definition is_Ok {A} (r : result A) : Prop := exists a, r = Ok a.
Definition raises {A} (r : result A) : Prop := exists e, r = Raise e.

(** ** Python primitives *)

Definition Qlt_bool (a b : Q) : bool := negb (Qle_bool b a).

(** [a / b] *)
Definition pydiv (a b : Q) : result Q :=
  if Qeq_bool b 0 then Raise ZeroDivisionError else Ok (a / b)%Q.

(** [max(a, b)]: the first maximal argument. *)
Definition pymax (a b : Q) : Q := if Qlt_bool a b then b else a.

(** [d[k]] *)
Definition getitem {V} (d : gmap string V) (k : string) : result V :=
  match d !! k with
  | Some v => Ok v
  | None => Raise (KeyError (KStr k))
  end.

(** [d[rank]] for a dict keyed by integers. *)
Definition getitem_rank {V} (d : gmap Z V) (rank : Z) : result V :=
  match d !! rank with
  | Some v => Ok v
  | None => Raise (KeyError (KInt rank))
  end.

(** [sum(d.values())] *)
Definition sum_values (d : gmap string Q) : Q :=
  map_fold (fun _ v acc => (v + acc)%Q) 0%Q d.

(** A dict comprehension, or a loop of item assignments: the items are
    evaluated in order, each one stored under its key, and the first
    exception ends the construction. *)
Fixpoint build_dict `{Countable K} {V} (acc : gmap K V)
    (items : list (K * result V)) : result (gmap K V) :=
  match items with
  | [] => Ok acc
  | (k, rv) :: rest => v ← rv; build_dict (<[k:=v]> acc) rest
  end.

(** [enumerate(l)], counting from [i]. *)
Fixpoint enumerate_from {A} (i : nat) (l : list A) : list (nat * A) :=
  match l with
  | [] => []
  | x :: t => (i, x) :: enumerate_from (S i) t
  end.
Definition enumerate {A} (l : list A) : list (nat * A) := enumerate_from 0 l.

(** [sorted(set(l))]: ascending, without duplicates. *)
Fixpoint insert_sorted (x : Z) (l : list Z) : list Z :=
  match l with
  | [] => [x]
  | y :: t =>
      if x <? y then x :: y :: t
      else if x =? y then y :: t
      else y :: insert_sorted x t
  end.
Definition sorted_set (l : list Z) : list Z := foldr insert_sorted [] l.

(** [len(l)] as a Python number. *)
Definition len {A} (l : list A) : Q := inject_Z (Z.of_nat (length l)).
Definition Qnat (i : nat) : Q := inject_Z (Z.of_nat i).

(** *** Strings *)

Definition lower_ascii (c : ascii) : ascii :=
  let n := nat_of_ascii c in
  if (65 <=? n)%nat && (n <=? 90)%nat then ascii_of_nat (n + 32) else c.

Fixpoint string_map (f : ascii -> ascii) (s : string) : string :=
  match s with
  | EmptyString => EmptyString
  | String c t => String (f c) (string_map f t)
  end.

(** [s.lower()] *)
Definition lower (s : string) : string := string_map lower_ascii s.

(** [s.replace(' ', '_')] *)
Definition replace_space (s : string) : string :=
  string_map (fun c => if Ascii.eqb c " " then "_"%char else c) s.

(** [s.endswith(suffix)] *)
Definition endswith (s suffix : string) : bool :=
  let n := String.length s in
  let k := String.length suffix in
  (k <=? n)%nat && String.eqb (substring (n - k) k s) suffix.

(** [s[:-k]] *)
Definition drop_last (k : nat) (s : string) : string :=
  substring 0 (String.length s - k) s.

(** Truth value of a string, or of [None]. *)
Definition truthy (o : option string) : bool :=
  match o with
  | Some s => negb (String.eqb s "")
  | None => false
  end.

(** ** Records and configuration *)

(** A [classifications] or [database] value: a string or a list of strings. *)
Inductive Tags : Type :=
| TagStr (s : string)
| TagList (l : list string).

Record BibData : Type := {
  bd_bibcode : option string;
  bd_scix_id : option string;
  bd_doctype : option string;
  bd_pubdate : option string;
  bd_entry_date : option string;
  bd_database : option Tags;
  bd_refereed : option bool
}.

Record Metrics : Type := { m_refereed : option bool }.

Record Record_ : Type := {
  bibcode : option string;
  scix_id : option string;
  bib_data : option BibData;
  metrics : option Metrics;
  classifications : option Tags
}.

Record Config : Type := {
  DOCTYPE_RANKING : option (gmap string Z);
  COLLECTION_RANKINGS : option (gmap string (gmap string (option Z)));
  COLLECTIONS : option (list string);
  BOOST_FACTOR_WEIGHTS : option (gmap string Q);
  RECENCY_BOOST_MULTIPLIER : option Q
}.

(** The output of the scoring call: a dict from field name to value. *)
Abbreviation BoostFactors := (gmap string Q).

(** ** Refereed boost *)

Definition compute_refereed_boost (record : Record_) : Q :=
  if match metrics record with
     | Some m => default false (m_refereed m)
     | None => false
     end then 1%Q
  else if match bib_data record with
          | Some bd => default false (bd_refereed bd)
          | None => false
          end then 1%Q
  else 0%Q.

(** ** Doctype boost *)

Definition rank_to_score_items (unique_ranks : list Z) : list (Z * result Q) :=
  map (fun '(i, rank) =>
         (rank, x ← pydiv (Qnat i) (len unique_ranks - 1)%Q; Ok (1 - x)%Q))
      (enumerate unique_ranks).

(** Lines 105-107: the doctype of a record, in lower case. *)
Definition record_doctype (record : Record_) : string :=
  match bib_data record with
  | Some bd => lower (default "" (bd_doctype bd))
  | None => ""
  end.

Definition compute_doctype_boost (config : Config) (record : Record_) : result Q :=
  let doctype := record_doctype record in
  match DOCTYPE_RANKING config with
  | Some doctype_rank =>
      if bool_decide (doctype_rank = ∅) then Ok 0%Q
      else
        let unique_ranks := sorted_set (map_to_list doctype_rank).*2 in
        rank_to_score ← build_dict ∅ (rank_to_score_items unique_ranks);
        doctype_scores ←
          build_dict ∅
            (map (fun '(doctype_name, rank) =>
                    (doctype_name, getitem_rank rank_to_score rank))
                 (map_to_list doctype_rank));
        Ok (default 0%Q (doctype_scores !! doctype))
  | None => Ok 0%Q
  end.

(** ** Dates

    [datetime.strptime(s, '%Y-%m-%d')], after CPython's [_strptime]: the
    format becomes the regular expression
    [(\d\d\d\d)-(1[0-2]|0[1-9]|[1-9])-(3[01]|[12]\d|0[1-9]|[1-9]| [1-9])],
    matched at the start of [s]; text left over, or a day that the month
    does not have, is a [ValueError]. *)

Record datetime : Type := {
  year : Z; month : Z; day : Z;
  hour : Z; minute : Z; second : Z; microsecond : Z
}.

Definition is_digit (c : ascii) : bool :=
  let n := nat_of_ascii c in (48 <=? n)%nat && (n <=? 57)%nat.
Definition digit_val (c : ascii) : Z := Z.of_nat (nat_of_ascii c) - 48.
Definition in_range (lo hi : Z) (c : ascii) : bool :=
  is_digit c && (lo <=? digit_val c) && (digit_val c <=? hi).

(** One alternative of a group: the value matched and the rest of the text. *)
Definition alternative : Type := string -> option (Z * string).

(** Two characters, the first in [l1..h1], the second in [l2..h2]. *)
Definition two_digits (l1 h1 l2 h2 : Z) : alternative := fun s =>
  match s with
  | String a (String b rest) =>
      if in_range l1 h1 a && in_range l2 h2 b
      then Some (10 * digit_val a + digit_val b, rest) else None
  | _ => None
  end.

(** One character in [lo..hi]. *)
Definition one_digit (lo hi : Z) : alternative := fun s =>
  match s with
  | String a rest => if in_range lo hi a then Some (digit_val a, rest) else None
  | _ => None
  end.

(** A space, then one character in [1..9]. *)
Definition space_digit : alternative := fun s =>
  match s with
  | String " " rest => one_digit 1 9 rest
  | _ => None
  end.

Definition Y_group : alternative := fun s =>
  match s with
  | String a (String b (String c (String d rest))) =>
      if is_digit a && is_digit b && is_digit c && is_digit d
      then Some (1000 * digit_val a + 100 * digit_val b
                 + 10 * digit_val c + digit_val d, rest)
      else None
  | _ => None
  end.

Definition m_group : list alternative :=
  [two_digits 1 1 0 2; two_digits 0 0 1 9; one_digit 1 9].
Definition d_group : list alternative :=
  [two_digits 3 3 0 1; two_digits 1 2 0 9; two_digits 0 0 1 9;
   one_digit 1 9; space_digit].

(** Alternation with backtracking: the first alternative after which the
    rest of the expression, [k], matches. *)
Fixpoint first_match {B} (alts : list alternative)
    (k : Z -> string -> option B) (s : string) : option B :=
  match alts with
  | [] => None
  | alt :: alts' =>
      match alt s ≫= (fun '(v, rest) => k v rest) with
      | Some b => Some b
      | None => first_match alts' k s
      end
  end.

Definition dash (s : string) : option string :=
  match s with
  | String "-" rest => Some rest
  | _ => None
  end.

(** The match of the expression: year, month, day, and the text left over. *)
Definition match_format (s : string) : option (Z * Z * Z * string) :=
  '(y, s1) ← Y_group s;
  s2 ← dash s1;
  first_match m_group (fun m s3 =>
    s4 ← dash s3;
    first_match d_group (fun d s5 => Some (y, m, d, s5)) s4) s2.

Definition is_leap (y : Z) : bool :=
  (y mod 4 =? 0) && (negb (y mod 100 =? 0) || (y mod 400 =? 0)).

Definition days_in_month (y m : Z) : Z :=
  if m =? 2 then (if is_leap y then 29 else 28)
  else if (m =? 4) || (m =? 6) || (m =? 9) || (m =? 11) then 30
  else 31.

Definition strptime (s : string) : result datetime :=
  match match_format s with
  | Some (y, m, d, rest) =>
      if negb (String.eqb rest "") then Raise ValueError
      else if (1 <=? y) && (1 <=? d) && (d <=? days_in_month y m)
      then Ok {| year := y; month := m; day := d;
                 hour := 0; minute := 0; second := 0; microsecond := 0 |}
      else Raise ValueError
  | None => Raise ValueError
  end.

(** [date.toordinal()]: days since 0001-01-01, that day being 1. *)
Definition days_before_year (y : Z) : Z :=
  let y' := y - 1 in y' * 365 + y' / 4 - y' / 100 + y' / 400.

Definition days_before_month (y m : Z) : Z :=
  foldr Z.add 0 (map (fun k => days_in_month y (Z.of_nat k)) (seq 1 (Z.to_nat m - 1))).

Definition toordinal (t : datetime) : Z :=
  days_before_year (year t) + days_before_month (year t) (month t) + day t.

Definition microseconds (t : datetime) : Z :=
  ((toordinal t * 24 + hour t) * 60 + minute t) * 60000000
  + second t * 1000000 + microsecond t.

(** [(a - b).days]: a [timedelta] is normalised so that its seconds and
    microseconds are not negative; its days are the floor. *)
Definition timedelta_days (a b : datetime) : Z :=
  (microseconds a - microseconds b) / 86400000000.

(** [a < b] on datetimes: field by field. *)
Fixpoint lex_ltb (a b : list Z) : bool :=
  match a, b with
  | x :: a', y :: b' => (x <? y) || ((x =? y) && lex_ltb a' b')
  | _, _ => false
  end.
Definition fields (t : datetime) : list Z :=
  [year t; month t; day t; hour t; minute t; second t; microsecond t].
Definition datetime_ltb (a b : datetime) : bool := lex_ltb (fields a) (fields b).

(** [min(a, b)]: the first minimal argument. *)
Definition datetime_min (a b : datetime) : datetime :=
  if datetime_ltb b a then b else a.

(** A date without a time of day, as [strptime] gives with this format. *)
Definition midnight (d : datetime) : Prop :=
  hour d = 0 /\ minute d = 0 /\ second d = 0 /\ microsecond d = 0.

(** A well-formed value of [datetime.now()]. *)
Definition valid_datetime (t : datetime) : Prop :=
  1 <= year t /\ 1 <= month t <= 12 /\ 1 <= day t <= days_in_month (year t) (month t)
  /\ 0 <= hour t < 24 /\ 0 <= minute t < 60 /\ 0 <= second t < 60
  /\ 0 <= microsecond t < 1000000.

(** ** Recency boost *)

(** Lines 148-149, on a date that is not empty. *)
Definition substitute_day (p : string) : string :=
  if endswith p "-00" then drop_last 2 p +:+ "01" else p.

(** Lines 135-170: the reference date, or [None] where the method has
    returned 1.0 by then. *)
Definition reference_date (record : Record_) : option datetime :=
  let '(pub_date, entry_date) :=
    match bib_data record with
    | Some bd => (bd_pubdate bd, bd_entry_date bd)
    | None => (None, None)
    end in
  if negb (truthy pub_date) && negb (truthy entry_date) then None
  else
    let pub_date :=
      match pub_date with
      | Some p =>
          if truthy pub_date && endswith p "-00"
          then Some (drop_last 2 p +:+ "01") else pub_date
      | None => pub_date
      end in
    if truthy pub_date && truthy entry_date then
      match strptime (default "" pub_date) with
      | Ok pub_datetime =>
          match strptime (default "" entry_date) with
          | Ok entry_datetime => Some (datetime_min pub_datetime entry_datetime)
          | Raise _ => None
          end
      | Raise _ => None
      end
    else if truthy pub_date then
      match strptime (default "" pub_date) with
      | Ok d => Some d
      | Raise _ => None
      end
    else if truthy entry_date then
      match strptime (default "" entry_date) with
      | Ok d => Some d
      | Raise _ => None
      end
    else None.

Definition age_months (now reference : datetime) : Q :=
  (inject_Z (timedelta_days now reference) / (3044 # 100))%Q.

Definition compute_recency_boost (config : Config) (now : datetime)
    (record : Record_) : result Q :=
  match reference_date record with
  | None => Ok 1%Q
  | Some reference =>
      let age := age_months now reference in
      if Qlt_bool 24 age then Ok 1%Q
      else
        let multiplier := default (1 # 10)%Q (RECENCY_BOOST_MULTIPLIER config) in
        pydiv 1 (1 + multiplier * age)%Q
  end.

(** ** Collection weights *)

Definition tags_truthy (t : Tags) : bool :=
  match t with
  | TagStr s => negb (String.eqb s "")
  | TagList l => match l with [] => false | _ => true end
  end.

(** [str(v).lower().replace(' ', '_')] *)
Definition normalize_tag (v : string) : string := replace_space (lower v).

(** Lines 195-213: the collection tags of a record. *)
Definition raw_values (record : Record_) : option Tags :=
  match classifications record with
  | Some c =>
      if tags_truthy c then Some c
      else
        match bib_data record with
        | Some bd =>
            match bd_database bd with
            | Some d => if tags_truthy d then Some d else None
            | None => None
            end
        | None => None
        end
  | None =>
      match bib_data record with
      | Some bd =>
          match bd_database bd with
          | Some d => if tags_truthy d then Some d else None
          | None => None
          end
      | None => None
      end
  end.

Definition record_collections (record : Record_) : list string :=
  let collected :=
    match raw_values record with
    | Some (TagList l) =>
        map normalize_tag (filter (fun v => negb (String.eqb v "") = true) l)
    | Some (TagStr s) =>
        if negb (String.eqb s "") then [normalize_tag s] else []
    | None => []
    end in
  match collected with
  | [] => ["general"]
  | _ => collected
  end.

(** The tags that one [classifications] or [database] value stands for:
    a string is one tag, a list is taken as it is; each tag is normalised,
    and a value that yields no tag stands for ["general"]. *)
Definition collections_from (t : Tags) : list string :=
  let tags :=
    match t with
    | TagStr s => [normalize_tag s]
    | TagList l => map normalize_tag (filter (fun v => negb (String.eqb v "") = true) l)
    end in
  match tags with
  | [] => ["general"]
  | _ => tags
  end.

Definition default_collections : list string :=
  ["astronomy"; "physics"; "earth_science"; "planetary_science";
   "heliophysics"; "general"].

(** [{f'{collection}_weight': 1.0 for collection in collections}] *)
Definition all_ones (collections : list string) : BoostFactors :=
  foldl (fun acc collection => <[collection +:+ "_weight" := 1%Q]> acc) ∅ collections.

(** The ranks, other than [None], of every table of the rankings. *)
Definition all_ranks (collection_rankings : gmap string (gmap string (option Z)))
    : list Z :=
  flat_map (fun rankings => omap id (map_to_list rankings).*2)
           (map_to_list collection_rankings).*2.

Definition rank_to_weight_items (sorted_ranks : list Z) : list (Z * result Q) :=
  map (fun '(i, rank) =>
         (rank,
          if (length sorted_ranks =? 1)%nat then Ok 1%Q
          else x ← pydiv ((9 # 10) * Qnat i)%Q (len sorted_ranks - 1)%Q;
               Ok (1 - x)%Q))
      (enumerate sorted_ranks).

(** Lines 259-269: the weight of one discipline. *)
Definition max_weight (collection_rankings : gmap string (gmap string (option Z)))
    (rank_to_weight : gmap Z Q) (record_collections : list string)
    (discipline : string) : Q :=
  foldl (fun max_weight record_collection =>
           let collection_table := default ∅ (collection_rankings !! record_collection) in
           match mjoin (collection_table !! discipline) with
           | Some rank => pymax max_weight (default 0%Q (rank_to_weight !! rank))
           | None => max_weight
           end)
        0%Q record_collections.

Definition compute_collection_weights (config : Config) (record : Record_)
    : result BoostFactors :=
  let record_collections := record_collections record in
  let collection_rankings := default ∅ (COLLECTION_RANKINGS config) in
  let collections := default default_collections (COLLECTIONS config) in
  if bool_decide (collection_rankings = ∅) then Ok (all_ones collections)
  else
    let all_ranks := sorted_set (all_ranks collection_rankings) in
    match all_ranks with
    | [] => Ok (all_ones collections)
    | _ =>
        let sorted_ranks := rev all_ranks in
        rank_to_weight ← build_dict ∅ (rank_to_weight_items sorted_ranks);
        if bool_decide ("general" ∈ record_collections)
        then Ok (all_ones collections)
        else
          Ok (foldl (fun collection_weights discipline =>
                       <[discipline +:+ "_weight" :=
                           max_weight collection_rankings rank_to_weight
                                      record_collections discipline]>
                         collection_weights)
                    ∅ collections)
    end.

(** ** The composite scorer *)

Definition default_weights : gmap string Q :=
  <["refereed_boost" := (6 # 10)%Q]>
    (<["doctype_boost" := (4 # 10)%Q]>
       (<["recency_boost" := 0%Q]> ∅)).

(** [{k: v/total_weight for k, v in weights.items()}] *)
Definition normalize_weights (weights : gmap string Q) (total_weight : Q)
    : result (gmap string Q) :=
  build_dict ∅ (map (fun '(k, v) => (k, pydiv v total_weight)) (map_to_list weights)).

(** The weighted sum of lines 297-301 and 352-356. *)
Definition weighted_sum (boost_factors normalized_weights : gmap string Q)
    : result Q :=
  r ← getitem boost_factors "refereed_boost";
  wr ← getitem normalized_weights "refereed_boost";
  d ← getitem boost_factors "doctype_boost";
  wd ← getitem normalized_weights "doctype_boost";
  c ← getitem boost_factors "recency_boost";
  wc ← getitem normalized_weights "recency_boost";
  Ok (r * wr + d * wd + c * wc)%Q.

Definition compute_final_boost (config : Config) (boost_factors : BoostFactors)
    (record : Record_) : result BoostFactors :=
  let weights := default ∅ (BOOST_FACTOR_WEIGHTS config) in
  let weights := if bool_decide (weights = ∅) then default_weights else weights in
  let total_weight := sum_values weights in
  boost_factor ←
    (if Qlt_bool 0 total_weight then
       normalized_weights ← normalize_weights weights total_weight;
       weighted_sum boost_factors normalized_weights
     else
       pydiv (sum_values boost_factors)
             (inject_Z (Z.of_nat (size boost_factors))));
  collection_weights ← compute_collection_weights config record;
  let collections := default default_collections (COLLECTIONS config) in
  build_dict ∅
    (map (fun collection =>
            (collection +:+ "_final_boost",
             w ← getitem collection_weights (collection +:+ "_weight");
             Ok (w * boost_factor)%Q))
         collections).

(** [d.update(e)] *)
Definition update (d e : BoostFactors) : BoostFactors := e ∪ d.

Definition compute_boost_factors (config : Config) (now : datetime)
    (record : Record_) : result BoostFactors :=
  let refereed_boost := compute_refereed_boost record in
  doctype_boost ← compute_doctype_boost config record;
  recency_boost ← compute_recency_boost config now record;
  let boost_factors : BoostFactors :=
    <["recency_boost" := recency_boost]>
      (<["doctype_boost" := doctype_boost]>
         (<["refereed_boost" := refereed_boost]> ∅)) in
  let weights := default ∅ (BOOST_FACTOR_WEIGHTS config) in
  let total_weight := sum_values weights in
  normalized_weights ← normalize_weights weights total_weight;
  boost_factor ← weighted_sum boost_factors normalized_weights;
  let boost_factors := <["boost_factor" := boost_factor]> boost_factors in
  collection_weights ← compute_collection_weights config record;
  let boost_factors := update boost_factors collection_weights in
  final_boosts ← compute_final_boost config boost_factors record;
  let boost_factors := update boost_factors final_boosts in
  Ok boost_factors.

(** ** Processing a request

    Storage, transmission, the logger and the clock are collaborators of
    the engine: they act on a world [World] that the engine does not look
    into. *)

Section Pipeline.
Context {World : Type}.
Variable logger_error : string -> World -> World.
Variable datetime_now : World -> datetime.
Variable store_boost_factors :
  option string -> option string -> BoostFactors -> World -> result unit * World.
Variable send_to_master_pipeline :
  Record_ -> BoostFactors -> World -> result unit * World.
(** [f"{e}"] *)
Variable str_exn : exn -> string.
Variable config : Config.

(** Lines 52-54 and 56-58: an identifier, at the top level or else in
    [bib_data]. *)
Definition resolve (top : option string) (request : Record_)
    (nested : BibData -> option string) : option string :=
  if negb (truthy top) then
    match bib_data request with
    | Some bd => Some (default "" (nested bd))
    | None => top
    end
  else top.


End Pipeline.

(** ** A world for examples: the events in the order they happen. *)




(** ** Example values *)

Definition empty_bib_data : BibData :=
  {| bd_bibcode := None; bd_scix_id := None; bd_doctype := None;
     bd_pubdate := None; bd_entry_date := None; bd_database := None;
     bd_refereed := None |}.

Definition empty_record : Record_ :=
  {| bibcode := None; scix_id := None; bib_data := None; metrics := None;
     classifications := None |}.

Definition empty_config : Config :=
  {| DOCTYPE_RANKING := None; COLLECTION_RANKINGS := None; COLLECTIONS := None;
     BOOST_FACTOR_WEIGHTS := None; RECENCY_BOOST_MULTIPLIER := None |}.

Definition midday (y m d : Z) : datetime :=
  {| year := y; month := m; day := d;
     hour := 12; minute := 0; second := 0; microsecond := 0 |}.

(** The configuration of the end-to-end example of the specification. *)
Definition example_config : Config :=
  {| DOCTYPE_RANKING := Some (<["article" := 1]> (<["abstract" := 2]> ∅));
     COLLECTION_RANKINGS :=
       Some (<["astronomy" := <["astronomy" := Some 2]> (<["physics" := Some 1]> ∅)]> ∅);
     COLLECTIONS := None;
     BOOST_FACTOR_WEIGHTS := Some default_weights;
     RECENCY_BOOST_MULTIPLIER := None |}.

Definition example_record : Record_ :=
  {| bibcode := None; scix_id := None;
     bib_data :=
       Some {| bd_bibcode := None; bd_scix_id := None;
               bd_doctype := Some "article"; bd_pubdate := Some "2024-01-01";
               bd_entry_date := None; bd_database := Some (TagStr "astronomy");
               bd_refereed := None |};
     metrics := Some {| m_refereed := Some true |};
     classifications := None |}.

Definition scix_only_record : Record_ :=
  {| bibcode := None; scix_id := Some "scix:0000-0000-0001";
     bib_data := bib_data example_record;
     metrics := metrics example_record;
     classifications := None |}.

Definition with_weights (weights : option (gmap string Q)) : Config :=
  {| DOCTYPE_RANKING := DOCTYPE_RANKING example_config;
     COLLECTION_RANKINGS := COLLECTION_RANKINGS example_config;
     COLLECTIONS := None;
     BOOST_FACTOR_WEIGHTS := weights;
     RECENCY_BOOST_MULTIPLIER := None |}.

Definition zero_weights : gmap string Q :=
  <["refereed_boost" := 0%Q]>
    (<["doctype_boost" := 0%Q]> (<["recency_boost" := 0%Q]> ∅)).

Definition single_rank_config : Config :=
  {| DOCTYPE_RANKING := Some (<["article" := 1]> ∅);
     COLLECTION_RANKINGS := None; COLLECTIONS := None;
     BOOST_FACTOR_WEIGHTS := Some default_weights;
     RECENCY_BOOST_MULTIPLIER := None |}.

Definition with_tags (c : option Tags) (database : option Tags) : Record_ :=
  {| bibcode := Some "2024ApJ...000..001A"; scix_id := None;
     bib_data :=
       Some {| bd_bibcode := None; bd_scix_id := None; bd_doctype := Some "article";
               bd_pubdate := None; bd_entry_date := None;
               bd_database := database; bd_refereed := None |};
     metrics := None;
     classifications := c |}.

(** [record], with [p] as the [pubdate] of its [bib_data], [bd]. *)
Definition with_pubdate (record : Record_) (bd : BibData) (p : string) : Record_ :=
  {| bibcode := bibcode record; scix_id := scix_id record;
     bib_data :=
       Some {| bd_bibcode := bd_bibcode bd; bd_scix_id := bd_scix_id bd;
               bd_doctype := bd_doctype bd; bd_pubdate := Some p;
               bd_entry_date := bd_entry_date bd; bd_database := bd_database bd;
               bd_refereed := bd_refereed bd |};
     metrics := metrics record;
     classifications := classifications record |}.

Definition with_dates (pubdate entry_date : option string) : Record_ :=
  {| bibcode := Some "2024ApJ...000..001A"; scix_id := None;
     bib_data :=
       Some {| bd_bibcode := None; bd_scix_id := None; bd_doctype := Some "article";
               bd_pubdate := pubdate; bd_entry_date := entry_date;
               bd_database := None; bd_refereed := None |};
     metrics := None;
     classifications := None |}.

(** A field of the result of a scoring call. *)
Definition get_field (r : result BoostFactors) (k : string) : option Q :=
  match r with
  | Ok boost_factors => boost_factors !! k
  | Raise _ => None
  end.

(** A field of a result has the value [q], as a rational. *)
Definition field_is (r : result BoostFactors) (k : string) (q : Q) : bool :=
  match get_field r k with
  | Some v => Qeq_bool v q
  | None => false
  end.

(** ** The message to the Master Pipeline ([send_to_master_pipeline]) *)

(** Lines 455-461 (and 328-334): an identifier, at the top level or else
    in [bib_data], without a default. *)
Definition resolve_get (top : option string) (record : Record_)
    (nested : BibData -> option string) : option string :=
  if negb (truthy top) then
    match bib_data record with
    | Some bd => nested bd
    | None => top
    end
  else top.

Record Message : Type := {
  msg_bibcode : option string;
  msg_scix_id : option string;
  msg_boosts : gmap string Q;
  msg_timestamp : string
}.

(** [boost_factors.get(k, 0.0)] *)
Definition get_or_zero (boost_factors : BoostFactors) (k : string) : Q :=
  default 0%Q (boost_factors !! k).

(** Lines 464-480: the message, [timestamp] being [get_date().isoformat()]. *)
Definition master_message (original_record : Record_) (boost_factors : BoostFactors)
    (timestamp : string) : Message :=
  let bibcode := resolve_get (bibcode original_record) original_record bd_bibcode in
  let scix_id := resolve_get (scix_id original_record) original_record bd_scix_id in
  {| msg_bibcode := bibcode;
     msg_scix_id := scix_id;
     msg_boosts :=
       <["general_final_boost" := get_or_zero boost_factors "general_final_boost"]>
       (<["heliophysics_final_boost" :=
            get_or_zero boost_factors "heliophysics_final_boost"]>
       (<["planetary_science_final_boost" :=
            get_or_zero boost_factors "planetary_science_final_boost"]>
       (<["earth_science_final_boost" :=
            get_or_zero boost_factors "earth_science_final_boost"]>
       (<["physics_final_boost" := get_or_zero boost_factors "physics_final_boost"]>
       (<["astronomy_final_boost" :=
            get_or_zero boost_factors "astronomy_final_boost"]>
       (<["boost_factor" := get_or_zero boost_factors "boost_factor"]>
       (<["recency_boost" := get_or_zero boost_factors "recency_boost"]>
       (<["refereed_boost" := get_or_zero boost_factors "refereed_boost"]>
       (<["doctype_boost" := get_or_zero boost_factors "doctype_boost"]> ∅)))))))));
     msg_timestamp := timestamp |}.

(** The keys of the boosts of a message. *)
Definition message_keys : list string :=
  ["doctype_boost"; "refereed_boost"; "recency_boost"; "boost_factor";
   "astronomy_final_boost"; "physics_final_boost"; "earth_science_final_boost";
   "planetary_science_final_boost"; "heliophysics_final_boost";
   "general_final_boost"].

Section Transmission.
Context {World : Type}.
Variable logger_error : string -> World -> World.
(** [get_date().isoformat()] *)
Variable get_date : World -> string.
(** [self.send_message(message=json.dumps(message), ...)] *)
Variable send_message : Message -> World -> result unit * World.
Variable str_exn : exn -> string.

End Transmission.

(** ** Batches ([run.py])

    Informational logging is left out. *)

(** Lines 291-297: the record made for one identifier. *)
Definition minimal_record (bibcode : string) : Record_ :=
  {| bibcode := Some bibcode;
     scix_id := None;
     bib_data := Some empty_bib_data;
     metrics := Some {| m_refereed := None |};
     classifications := Some (TagList []) |}.

(** [a or b] *)
Definition py_or (a b : option string) : option string :=
  if truthy a then a else b.

(** Lines 44-48 of [process_file]: the identifiers of the records of a file. *)
Definition file_identifiers (records : list Record_) : list string :=
  omap (fun record =>
          let bibcode := py_or (bibcode record) (scix_id record) in
          if truthy bibcode then bibcode else None)
       records.

Section Batches.
Context {World : Type}.
Variable logger_warning : string -> World -> World.
Variable logger_error : string -> World -> World.
Variable process_batch : list Record_ -> World -> result unit * World.
Variable str_exn : exn -> string.

(** Lines 285-303: the loop, from the identifiers left, the batch so far
    and the world; it ends with the batch that is left. *)
Fixpoint batch_loop (batch_size : Z) (bibcodes : list string)
    (batch : list Record_) (w : World) : result (list Record_) * World :=
  match bibcodes with
  | [] => (Ok batch, w)
  | bibcode :: rest =>
      let batch := (batch ++ [minimal_record bibcode])%list in
      if batch_size <=? Z.of_nat (length batch) then
        match process_batch batch w with
        | (Raise e, w1) => (Raise e, w1)
        | (Ok _, w1) => batch_loop batch_size rest [] w1
        end
      else batch_loop batch_size rest batch w
  end.

Definition process_bibcodes_in_batches (bibcodes : list string) (batch_size : Z)
    (w : World) : result unit * World :=
  match bibcodes with
  | [] => (Ok tt, logger_warning "No bibcodes provided for processing" w)
  | _ =>
      let raised (e : exn) (w1 : World) : result unit * World :=
        (Raise e,
         logger_error ("Error processing bibcodes in batches through Celery: "
                       +:+ str_exn e) w1) in
      match batch_loop batch_size bibcodes [] w with
      | (Raise e, w1) => raised e w1
      | (Ok batch, w1) =>
          match batch with
          | [] => (Ok tt, w1)
          | _ =>
              match process_batch batch w1 with
              | (Raise e, w2) => raised e w2
              | (Ok _, w2) => (Ok tt, w2)
              end
          end
      end
  end.

End Batches.

(** The batches handed to [process_batch], when it accepts every one. *)
Definition submitted_batches (bibcodes : list string) (batch_size : Z)
    : list (list Record_) :=
  (process_bibcodes_in_batches
     (fun _ w => w)
     (fun _ w => w)
     (fun batch (w : list (list Record_)) => (Ok tt, (w ++ [batch])%list))
     (fun _ => "")
     bibcodes batch_size []).2.

(** ** Reading identifiers ([read_bibcodes_from_file]) *)

(** The white space of [str.strip()], among the first 256 characters. *)
Definition is_space (c : ascii) : bool :=
  let n := nat_of_ascii c in
  ((9 <=? n)%nat && (n <=? 13)%nat) || ((28 <=? n)%nat && (n <=? 32)%nat)
  || (n =? 133)%nat || (n =? 160)%nat.

Fixpoint lstrip (s : string) : string :=
  match s with
  | EmptyString => EmptyString
  | String c t => if is_space c then lstrip t else s
  end.

Fixpoint rstrip (s : string) : string :=
  match s with
  | EmptyString => EmptyString
  | String c t =>
      match rstrip t with
      | EmptyString => if is_space c then EmptyString else String c EmptyString
      | t' => String c t'
      end
  end.

(** [s.strip()] *)
Definition strip (s : string) : string := rstrip (lstrip s).

(** [s.startswith('#')] *)
Definition is_comment (s : string) : bool :=
  match s with
  | String "#" _ => true
  | _ => false
  end.

(** Lines 329-346: the identifiers of a file, given its lines, or [None]
    when the file is not there or cannot be read. *)
Definition read_bibcodes_from_file (file : option (list string)) : list string :=
  match file with
  | None => []
  | Some lines =>
      foldl (fun bibcodes line =>
               let bibcode := strip line in
               if negb (String.eqb bibcode "") && negb (is_comment bibcode)
               then (bibcodes ++ [bibcode])%list else bibcodes)
            [] lines
  end.

Definition astronomy_only_config : Config :=
  {| DOCTYPE_RANKING := DOCTYPE_RANKING example_config;
     COLLECTION_RANKINGS := COLLECTION_RANKINGS example_config;
     COLLECTIONS := Some ["astronomy"];
     BOOST_FACTOR_WEIGHTS := Some default_weights;
     RECENCY_BOOST_MULTIPLIER := None |}.

(** The weight of the i-th rank of [n], counted from the highest. *)
Definition rank_weight (n i : nat) : Q :=
  if (n =? 1)%nat then 1%Q
  else (1 - (9 # 10) * Qnat i / (inject_Z (Z.of_nat n) - 1))%Q.

(** What a tag of the record puts forward for a discipline. *)
Definition tag_weight (collection_rankings : gmap string (gmap string (option Z)))
    (rank_to_weight : gmap Z Q) (discipline tag : string) : option Q :=
  match mjoin (default ∅ (collection_rankings !! tag) !! discipline) with
  | Some rank => Some (default 0%Q (rank_to_weight !! rank))
  | None => None
  end.

(** A [process_batch] that accepts every batch and keeps it. *)
Definition record_batch (batch : list Record_) (w : list (list Record_))
    : result unit * list (list Record_) :=
  (Ok tt, (w ++ [batch])%list).

(** * Properties *)

(** ** Results *)

Lemma raises_not_Ok {A} (r : result A) (a : A) : raises r -> r <> Ok a.
Proof. intros [e ->]. discriminate. Qed.

Lemma bind_Ok_inv {A B} (m : result A) (f : A -> result B) (b : B) :
  m ≫= f = Ok b -> exists a, m = Ok a /\ f a = Ok b.
Proof. destruct m as [a|e]; simpl; [eauto | discriminate]. Qed.

Lemma bind_raises {A B} (m : result A) (f : A -> result B) :
  (forall a, m = Ok a -> raises (f a)) -> raises (m ≫= f).
Proof.
  destruct m as [a|e]; simpl; intros H.
  - by apply H.
  - by exists e.
Qed.

(** ** C1: identity and rejection *)




(** ** C2: missing and zero-sum weights *)

Lemma pydiv_by_zero (a b : Q) : (b == 0)%Q -> pydiv a b = Raise ZeroDivisionError.
Proof. intros H. unfold pydiv. apply Qeq_bool_iff in H. by rewrite H. Qed.

Lemma pydiv_nonzero (a b : Q) : ~ (b == 0)%Q -> pydiv a b = Ok (a / b)%Q.
Proof.
  intros H. unfold pydiv. destruct (Qeq_bool b 0) eqn:E; [|done].
  by apply Qeq_bool_iff in E.
Qed.

Lemma sum_values_empty : sum_values ∅ = 0%Q.
Proof. unfold sum_values. by rewrite map_fold_empty. Qed.

Section BasicBoosts.
Variables r d c : Q.
Let basic : gmap string Q :=
  <["recency_boost" := c]> (<["doctype_boost" := d]> (<["refereed_boost" := r]> ∅)).

Lemma basic_boosts_refereed : basic !! "refereed_boost" = Some r.
Proof. subst basic. by simplify_map_eq. Qed.
Lemma basic_boosts_doctype : basic !! "doctype_boost" = Some d.
Proof. subst basic. by simplify_map_eq. Qed.
Lemma basic_boosts_recency : basic !! "recency_boost" = Some c.
Proof. subst basic. by simplify_map_eq. Qed.
End BasicBoosts.

Lemma normalize_weights_zero_total (weights : gmap string Q) (total_weight : Q) :
  (total_weight == 0)%Q ->
  normalize_weights weights total_weight
  = if bool_decide (weights = ∅) then Ok ∅ else Raise ZeroDivisionError.
Proof.
  intros H. unfold normalize_weights. case_bool_decide as Hw.
  - subst weights. by rewrite map_to_list_empty.
  - destruct (map_to_list weights) as [|[k v] rest] eqn:E.
    + by apply map_to_list_empty_iff in E.
    + simpl. by rewrite (pydiv_by_zero _ _ H).
Qed.

(** C2 (the code departs from it). When the weights are absent, or sum to
    zero, [compute_boost_factors] raises, for every record: it does not fall
    back to the default weights, nor to the plain mean. *)
Theorem C2_degenerate_weights_raise (config : Config) (now : datetime)
    (record : Record_) :
  (sum_values (default ∅ (BOOST_FACTOR_WEIGHTS config)) == 0)%Q ->
  raises (compute_boost_factors config now record).
Proof.
  intros Hsum. unfold compute_boost_factors.
  apply bind_raises. intros doctype_boost _.
  apply bind_raises. intros recency_boost _.
  rewrite (normalize_weights_zero_total _ _ Hsum).
  case_bool_decide.
  - simpl. unfold weighted_sum, getitem.
    rewrite basic_boosts_refereed. simpl. rewrite lookup_empty. by eexists.
  - by eexists.
Qed.

Lemma C2_degenerate_weights_raise_witness :
  raises (compute_boost_factors (with_weights None) (midday 2024 6 1) example_record)
  /\ raises (compute_boost_factors (with_weights (Some zero_weights))
                                   (midday 2024 6 1) example_record).
Proof.
  split; apply C2_degenerate_weights_raise; reflexivity.
Defined.

(** The exceptions at those inputs, and the sibling [compute_final_boost],
    which does take the default weights when none are configured. *)
Example C2_absent_weights_KeyError :
  compute_boost_factors (with_weights None) (midday 2024 6 1) example_record
  = Raise (KeyError (KStr "refereed_boost")).
Proof. vm_compute. reflexivity. Qed.

Example C2_zero_weights_ZeroDivisionError :
  compute_boost_factors (with_weights (Some zero_weights)) (midday 2024 6 1) example_record
  = Raise ZeroDivisionError.
Proof. vm_compute. reflexivity. Qed.

(** ** C3: a single distinct rank *)

Lemma sorted_set_constant (r : Z) (l : list Z) :
  l <> [] -> Forall (fun v => v = r) l -> sorted_set l = [r].
Proof.
  induction l as [|x t IH]; [done|].
  intros _ Hall. inversion Hall as [|? ? -> Ht]; subst.
  unfold sorted_set in *. simpl.
  destruct t as [|y t'].
  - reflexivity.
  - rewrite IH by done. simpl.
    by rewrite Z.ltb_irrefl, Z.eqb_refl.
Qed.

(** C3 (the code departs from it). With a ranking that is not empty and
    holds one distinct rank, [compute_doctype_boost] raises
    [ZeroDivisionError] for every record: the score [1 - i/(k-1)] is
    computed with [k = 1]. *)
Theorem C3_single_rank_raises (config : Config) (record : Record_)
    (doctype_rank : gmap string Z) (r : Z) :
  DOCTYPE_RANKING config = Some doctype_rank ->
  doctype_rank <> ∅ ->
  (forall name rank, doctype_rank !! name = Some rank -> rank = r) ->
  compute_doctype_boost config record = Raise ZeroDivisionError.
Proof.
  intros Hcfg Hne Hall. unfold compute_doctype_boost. rewrite Hcfg.
  rewrite bool_decide_eq_false_2 by done.
  rewrite (sorted_set_constant r).
  - reflexivity.
  - intros E. apply fmap_nil_inv in E. by apply map_to_list_empty_iff in E.
  - apply Forall_fmap, Forall_forall. intros [name rank] Hin. simpl.
    apply elem_of_map_to_list in Hin. eauto.
Qed.

Lemma C3_single_rank_raises_witness :
  compute_doctype_boost single_rank_config example_record = Raise ZeroDivisionError.
Proof.
  apply (C3_single_rank_raises single_rank_config example_record
           (<["article" := 1]> ∅) 1).
  - reflexivity.
  - apply insert_non_empty.
  - intros name rank H. apply lookup_insert_Some in H.
    destruct H as [[_ H]|[_ H]]; [by symmetry | by rewrite lookup_empty in H].
Defined.

(** ** Dicts built by a loop *)

Section FoldlInsert.
Context {A : Type} (key : A -> string) (val : A -> Q).

Let step (acc : gmap string Q) (x : A) : gmap string Q := <[key x := val x]> acc.

Lemma foldl_insert_notin (l : list A) (acc : gmap string Q) (k : string) :
  k ∉ map key l -> foldl step acc l !! k = acc !! k.
Proof.
  revert acc. induction l as [|x t IH]; intros acc Hk; [done|].
  simpl in *. apply not_elem_of_cons in Hk as [Hx Ht].
  rewrite IH by done. subst step. simpl. by rewrite lookup_insert_ne.
Qed.

Lemma foldl_insert_in (l : list A) (acc : gmap string Q) (k : string) :
  k ∈ map key l ->
  exists x, x ∈ l /\ key x = k /\ foldl step acc l !! k = Some (val x).
Proof.
  revert acc. induction l as [|x t IH]; intros acc Hk; simpl in *.
  - by apply elem_of_nil in Hk.
  - destruct (decide (k ∈ map key t)) as [Hin|Hnin].
    + destruct (IH (step acc x) Hin) as (y & Hy & Hkey & Hlook).
      exists y. split; [by apply list_elem_of_further | done].
    + apply elem_of_cons in Hk as [->|Hk]; [|done].
      exists x. split; [by apply list_elem_of_here|]. split; [done|].
      rewrite foldl_insert_notin by done.
      subst step. simpl. by rewrite lookup_insert_eq.
Qed.
End FoldlInsert.

Lemma all_ones_lookup (collections : list string) (discipline : string) :
  discipline ∈ collections ->
  all_ones collections !! (discipline +:+ "_weight") = Some 1%Q.
Proof.
  intros Hin. unfold all_ones.
  destruct (foldl_insert_in (fun c => c +:+ "_weight") (fun _ => 1%Q)
              collections ∅ (discipline +:+ "_weight")) as (x & _ & _ & H).
  - apply list_elem_of_In, (in_map (fun c => c +:+ "_weight")), list_elem_of_In, Hin.
  - exact H.
Qed.

Section BuildDict.
Context `{Countable K} {V : Type}.

Lemma build_dict_Ok (items : list (K * result V)) (acc : gmap K V) :
  Forall (fun item => is_Ok item.2) items -> is_Ok (build_dict acc items).
Proof.
  revert acc. induction items as [|[k rv] rest IH]; intros acc Hall; simpl.
  - by exists acc.
  - inversion Hall as [|? ? [v Hv] Hrest]; subst. simpl in Hv. subst rv. simpl.
    by apply IH.
Qed.

Lemma build_dict_notin (items : list (K * result V)) (acc m : gmap K V) (k : K) :
  build_dict acc items = Ok m -> k ∉ items.*1 -> m !! k = acc !! k.
Proof.
  revert acc. induction items as [|[k' rv] rest IH]; intros acc Hb Hk; simpl in *.
  - by inversion Hb.
  - apply not_elem_of_cons in Hk as [Hne Hk].
    apply bind_Ok_inv in Hb as (v & -> & Hb).
    rewrite (IH _ Hb Hk). by rewrite lookup_insert_ne.
Qed.

Lemma build_dict_in (items : list (K * result V)) (acc m : gmap K V) (k : K) :
  build_dict acc items = Ok m -> k ∈ items.*1 ->
  exists rv v, (k, rv) ∈ items /\ rv = Ok v /\ m !! k = Some v.
Proof.
  revert acc. induction items as [|[k' rv] rest IH]; intros acc Hb Hk; simpl in *.
  - by apply elem_of_nil in Hk.
  - apply bind_Ok_inv in Hb as (v & -> & Hb).
    destruct (decide (k ∈ rest.*1)) as [Hin|Hnin].
    + destruct (IH _ Hb Hin) as (rv & v' & Hrv & -> & Hm).
      exists (Ok v'), v'. split; [by apply list_elem_of_further | done].
    + apply elem_of_cons in Hk as [->|Hk]; [|done].
      exists (Ok v), v. split; [by apply list_elem_of_here|]. split; [done|].
      rewrite (build_dict_notin _ _ _ _ Hb Hnin). by rewrite lookup_insert_eq.
Qed.
End BuildDict.

(** ** C5: the general collection *)

Lemma len_minus_one_nonzero {A} (l : list A) :
  length l <> 1%nat -> ~ (len l - 1 == 0)%Q.
Proof.
  intros Hlen Heq. unfold len, Qeq, Qminus, Qplus in Heq. simpl in Heq. lia.
Qed.

Lemma rank_to_weight_Ok (sorted_ranks : list Z) (acc : gmap Z Q) :
  is_Ok (build_dict acc (rank_to_weight_items sorted_ranks)).
Proof.
  apply build_dict_Ok. unfold rank_to_weight_items.
  apply Forall_forall. intros item Hin.
  apply list_elem_of_In, in_map_iff in Hin as ([i rank] & <- & _). simpl.
  destruct (length sorted_ranks =? 1)%nat eqn:E.
  - by eexists.
  - apply Nat.eqb_neq in E.
    rewrite pydiv_nonzero by by apply len_minus_one_nonzero.
    by eexists.
Qed.

(** C5. When ["general"] is among the collection tags of a record, the
    weights are computed and every discipline of [COLLECTIONS] has weight
    1.0, whatever [COLLECTION_RANKINGS] holds. *)
Theorem C5_general_gives_all_ones (config : Config) (record : Record_) :
  "general" ∈ record_collections record ->
  compute_collection_weights config record
  = Ok (all_ones (default default_collections (COLLECTIONS config)))
  /\ forall discipline,
       discipline ∈ default default_collections (COLLECTIONS config) ->
       all_ones (default default_collections (COLLECTIONS config))
         !! (discipline +:+ "_weight") = Some 1%Q.
Proof.
  intros Hgen. split; [|apply all_ones_lookup].
  unfold compute_collection_weights.
  case_bool_decide; [done|].
  destruct (sorted_set _) as [|x t]; [done|].
  destruct (rank_to_weight_Ok (rev (x :: t)) ∅) as [rank_to_weight ->]. simpl.
  by rewrite bool_decide_eq_true_2.
Qed.

Lemma C5_general_gives_all_ones_witness :
  compute_collection_weights example_config
    (with_tags (Some (TagList ["Astronomy"; "General"])) None)
  = Ok (all_ones default_collections).
Proof.
  apply (C5_general_gives_all_ones example_config
           (with_tags (Some (TagList ["Astronomy"; "General"])) None)).
  vm_compute. apply list_elem_of_In. right. by left.
Defined.

(** The two ways of C5 in which a record comes to hold the tag. *)
Lemma general_by_normalization (record : Record_) (l : list string) :
  raw_values record = Some (TagList l) -> "General" ∈ l ->
  "general" ∈ record_collections record.
Proof.
  intros Hraw Hin. unfold record_collections. rewrite Hraw.
  assert ("general" ∈ map normalize_tag
            (filter (fun v => negb (String.eqb v "") = true) l)) as Hmem.
  { apply list_elem_of_In, in_map_iff. exists "General". split; [done|].
    apply list_elem_of_In, list_elem_of_filter. by split. }
  destruct (map normalize_tag _); [by apply elem_of_nil in Hmem | done].
Qed.

Lemma general_by_default (record : Record_) :
  raw_values record = None -> record_collections record = ["general"].
Proof. intros Hraw. unfold record_collections. by rewrite Hraw. Qed.

(** ** C9: classifications and database *)

(** C9 (as the code has it). When [classifications] is present and not
    empty, the collection tags come from it alone; when it is absent, or
    present and empty, they come from [bib_data.database]. *)
Theorem C9_classifications_take_precedence (record : Record_) :
  (forall c, classifications record = Some c -> tags_truthy c = true ->
             record_collections record = collections_from c)
  /\ ((classifications record = None
       \/ exists c, classifications record = Some c /\ tags_truthy c = false) ->
      record_collections record
      = match bib_data record ≫= bd_database with
        | Some d => if tags_truthy d then collections_from d else ["general"]
        | None => ["general"]
        end).
Proof.
  split.
  - intros c Hc Ht. unfold record_collections, raw_values, collections_from.
    rewrite Hc, Ht. destruct c as [s|l]; [|done].
    simpl in Ht. by rewrite Ht.
  - intros Hc.
    assert (raw_values record
            = match bib_data record ≫= bd_database with
              | Some d => if tags_truthy d then Some d else None
              | None => None
              end) as Hraw.
    { unfold raw_values.
      destruct Hc as [->|(c & -> & ->)]; destruct (bib_data record) as [bd|]; done. }
    unfold record_collections. rewrite Hraw.
    destruct (bib_data record ≫= bd_database) as [d|]; [|done].
    destruct (tags_truthy d) eqn:Ht; [|done].
    unfold collections_from. destruct d as [s|l]; [|done].
    simpl in Ht. by rewrite Ht.
Qed.

Lemma C9_classifications_take_precedence_witness :
  record_collections
    (with_tags (Some (TagStr "Earth Science")) (Some (TagList ["astronomy"])))
  = ["earth_science"].
Proof.
  apply (proj1 (C9_classifications_take_precedence
                  (with_tags (Some (TagStr "Earth Science"))
                             (Some (TagList ["astronomy"]))))
               (TagStr "Earth Science"));
    reflexivity.
Defined.

(** C9 (as stated) fails: with [classifications] present and empty, the
    tags, and with them the weights, follow [bib_data.database]. *)
Lemma C9_counterexample :
  let r := with_tags (Some (TagList [])) (Some (TagStr "astronomy")) in
  let r' := with_tags (Some (TagList [])) None in
  classifications r = Some (TagList [])
  /\ record_collections r = ["astronomy"]
  /\ record_collections r' = ["general"]
  /\ get_field (compute_collection_weights example_config r) "physics_weight"
     = Some (1 # 10)%Q
  /\ get_field (compute_collection_weights example_config r') "physics_weight"
     = Some 1%Q.
Proof. repeat split; vm_compute; reflexivity. Qed.

(** ** Strings that end in a day *)

Lemma append_cons (c : ascii) (s t : string) :
  String c s +:+ t = String c (s +:+ t).
Proof. reflexivity. Qed.

Lemma append_nil (t : string) : "" +:+ t = t.
Proof. reflexivity. Qed.

Lemma length_append (s t : string) :
  String.length (s +:+ t) = (String.length s + String.length t)%nat.
Proof.
  induction s as [|c s IH]; rewrite ?append_cons, ?append_nil; simpl;
    [done | by rewrite IH].
Qed.

Lemma substring_append_suffix (s t : string) (k : nat) :
  substring (String.length s) k (s +:+ t) = substring 0 k t.
Proof. induction s as [|c s IH]; rewrite ?append_cons, ?append_nil; simpl; done. Qed.

Lemma substring_append_prefix (s t : string) :
  substring 0 (String.length s) (s +:+ t) = s.
Proof.
  induction s as [|c s IH]; rewrite ?append_cons, ?append_nil; simpl.
  - by destruct t.
  - by rewrite IH.
Qed.

Lemma append_assoc (s t u : string) : (s +:+ t) +:+ u = s +:+ (t +:+ u).
Proof.
  induction s as [|c s IH]; rewrite ?append_cons, ?append_nil; [done | by f_equal].
Qed.

Lemma endswith_append (s t suffix : string) :
  String.length t = String.length suffix ->
  endswith (s +:+ t) suffix = String.eqb t suffix.
Proof.
  intros Hlen. unfold endswith. rewrite length_append, <- Hlen.
  replace (String.length s + String.length t - String.length t)%nat
    with (String.length s) by lia.
  rewrite substring_append_suffix.
  replace (String.length t <=? String.length s + String.length t)%nat with true
    by (symmetry; apply Nat.leb_le; lia).
  simpl. f_equal.
  clear. induction t as [|c t IH]; simpl; [done | by rewrite IH].
Qed.

Lemma drop_last_append (k : nat) (s t : string) :
  (k <= String.length t)%nat -> drop_last k (s +:+ t) = s +:+ drop_last k t.
Proof.
  intros Hk. unfold drop_last. rewrite length_append.
  replace (String.length s + String.length t - k)%nat
    with (String.length s + (String.length t - k))%nat by lia.
  generalize (String.length t - k)%nat as n. intros n.
  induction s as [|c s IH]; rewrite ?append_cons, ?append_nil; simpl;
    [done | by rewrite IH].
Qed.

Lemma substitute_day_00 (s : string) : substitute_day (s +:+ "-00") = s +:+ "-01".
Proof.
  unfold substitute_day. rewrite (endswith_append s "-00" "-00") by done. simpl.
  rewrite drop_last_append by (simpl; lia).
  by rewrite append_assoc.
Qed.

Lemma substitute_day_01 (s : string) : substitute_day (s +:+ "-01") = s +:+ "-01".
Proof.
  unfold substitute_day. by rewrite (endswith_append s "-01" "-00").
Qed.

Lemma append_not_empty (s t : string) : t <> "" -> String.eqb (s +:+ t) "" = false.
Proof.
  intros Ht. destruct s; rewrite ?append_cons, ?append_nil; simpl; [|done].
  by apply String.eqb_neq.
Qed.

(** ** The reference date *)

(** [reference_date], by the cases of its two dates. *)
Lemma reference_date_cases (record : Record_) :
  let p := bib_data record ≫= bd_pubdate in
  let e := bib_data record ≫= bd_entry_date in
  let P := strptime (substitute_day (default "" p)) in
  let E := strptime (default "" e) in
  reference_date record
  = match truthy p, truthy e with
    | true, true =>
        match P, E with
        | Ok pub_datetime, Ok entry_datetime =>
            Some (datetime_min pub_datetime entry_datetime)
        | _, _ => None
        end
    | true, false => match P with Ok d => Some d | Raise _ => None end
    | false, true => match E with Ok d => Some d | Raise _ => None end
    | false, false => None
    end.
Proof.
  unfold reference_date.
  destruct (bib_data record) as [bd|]; simpl; [|done].
  destruct (bd_pubdate bd) as [p|]; simpl.
  - destruct (String.eqb p "") eqn:Hp; simpl.
    + apply String.eqb_eq in Hp. subst p. simpl.
      destruct (truthy (bd_entry_date bd)); done.
    + assert (truthy (Some (substitute_day p)) = true) as Hs.
      { unfold substitute_day. destruct (endswith p "-00"); simpl.
        - by rewrite append_not_empty.
        - by rewrite Hp. }
      assert ((if endswith p "-00" then Some (drop_last 2 p +:+ "01") else Some p)
              = Some (substitute_day p)) as ->.
      { unfold substitute_day. by destruct (endswith p "-00"). }
      rewrite Hs. simpl.
      destruct (truthy (bd_entry_date bd)); simpl; [|done].
      destruct (strptime (substitute_day p)); done.
  - destruct (truthy (bd_entry_date bd)); done.
Qed.

(** ** C7: a day of 00 *)

Lemma reference_date_with_pubdate_00 (record : Record_) (bd : BibData) (s : string) :
  reference_date (with_pubdate record bd (s +:+ "-00"))
  = reference_date (with_pubdate record bd (s +:+ "-01")).
Proof.
  rewrite !reference_date_cases. simpl.
  by rewrite substitute_day_00, substitute_day_01, !append_not_empty.
Qed.

(** C7 (as the code has it). A [pubdate] that ends in [-00] is treated as
    the same string with [-01] in its place: the substitution is made
    before parsing, so that both parse alike and yield the same recency
    boost. *)
Theorem C7_pubdate_day_00 (config : Config) (now : datetime)
    (record : Record_) (bd : BibData) (s : string) :
  strptime (substitute_day (s +:+ "-00")) = strptime (s +:+ "-01")
  /\ compute_recency_boost config now (with_pubdate record bd (s +:+ "-00"))
     = compute_recency_boost config now (with_pubdate record bd (s +:+ "-01")).
Proof.
  split.
  - by rewrite substitute_day_00.
  - unfold compute_recency_boost. by rewrite reference_date_with_pubdate_00.
Qed.

(** C7 (as stated) fails for [entry_date], on which no substitution is
    made: a day of 00 does not parse there, and the boost is the neutral
    1.0 and not that of the first day of the month. *)
Lemma C7_counterexample :
  let now := midday 2024 6 1 in
  strptime "2024-03-00" = Raise ValueError
  /\ compute_recency_boost example_config now (with_dates None (Some "2024-03-00"))
     = Ok 1%Q
  /\ exists v,
       compute_recency_boost example_config now (with_dates None (Some "2024-03-01"))
       = Ok v /\ ~ (v == 1)%Q.
Proof.
  split; [reflexivity|]. split; [reflexivity|].
  eexists. split; [vm_compute; reflexivity|]. intros H. discriminate H.
Qed.

(** ** C4: one date of two that parses *)

(** C4 (as the code has it). With both dates present and not empty, the
    boost is the neutral 1.0 as soon as one of them fails to parse; a date
    that parses is the reference date when the other one is absent or
    empty, or parses as well; and with no date the boost is 1.0. *)
Theorem C4_reference_date (config : Config) (now : datetime) (record : Record_) :
  let p := bib_data record ≫= bd_pubdate in
  let e := bib_data record ≫= bd_entry_date in
  let P := strptime (substitute_day (default "" p)) in
  let E := strptime (default "" e) in
  (truthy p = true -> truthy e = true -> raises P \/ raises E ->
   compute_recency_boost config now record = Ok 1%Q)
  /\ (truthy p = true -> truthy e = true ->
      forall dp de, P = Ok dp -> E = Ok de ->
                    reference_date record = Some (datetime_min dp de))
  /\ (truthy p = true -> truthy e = false ->
      forall d, P = Ok d -> reference_date record = Some d)
  /\ (truthy p = false -> truthy e = true ->
      forall d, E = Ok d -> reference_date record = Some d)
  /\ (truthy p = false -> truthy e = false ->
      compute_recency_boost config now record = Ok 1%Q).
Proof.
  intros p e P E. unfold compute_recency_boost.
  rewrite reference_date_cases. fold p e P E.
  repeat split.
  - intros -> -> [[x ->]|[x ->]]; [done|]. by destruct P.
  - by intros -> -> dp de -> ->.
  - by intros -> -> d ->.
  - by intros -> -> d ->.
  - by intros -> ->.
Qed.

Lemma C4_reference_date_witness :
  compute_recency_boost example_config (midday 2024 6 1)
    (with_dates (Some "2024-01-15") (Some "15 January 2024"))
  = Ok 1%Q.
Proof.
  apply (proj1 (C4_reference_date example_config (midday 2024 6 1)
                  (with_dates (Some "2024-01-15") (Some "15 January 2024")))).
  - reflexivity.
  - reflexivity.
  - right. by exists ValueError.
Defined.

(** C4 (as stated) fails: of two dates present, the one that parses is not
    used when the other does not; the boost is 1.0, not the decay value of
    the date that parses, five months old here. *)
Lemma C4_counterexample :
  let now := midday 2024 6 1 in
  (exists d, strptime "2024-01-15" = Ok d)
  /\ strptime "15 January 2024" = Raise ValueError
  /\ compute_recency_boost example_config now
       (with_dates (Some "2024-01-15") (Some "15 January 2024")) = Ok 1%Q
  /\ exists v,
       compute_recency_boost example_config now (with_dates (Some "2024-01-15") None)
       = Ok v /\ ~ (v == 1)%Q.
Proof.
  split; [eexists; reflexivity|]. split; [reflexivity|]. split; [reflexivity|].
  eexists. split; [vm_compute; reflexivity|]. intros H. discriminate H.
Qed.

(** ** C6: the decay *)

Lemma Qlt_bool_iff (a b : Q) : Qlt_bool a b = true <-> (a < b)%Q.
Proof.
  unfold Qlt_bool. rewrite negb_true_iff. split.
  - intros H. apply Qnot_le_lt. intros Hle. apply Qle_bool_iff in Hle. congruence.
  - intros H. destruct (Qle_bool b a) eqn:E; [|done].
    apply Qle_bool_iff in E. by apply Qlt_not_le in H.
Qed.

Lemma Qlt_bool_false (a b : Q) : Qlt_bool a b = false <-> (b <= a)%Q.
Proof.
  unfold Qlt_bool. rewrite negb_false_iff. apply Qle_bool_iff.
Qed.

Lemma age_months_nonneg (now reference : datetime) :
  0 <= timedelta_days now reference -> (0 <= age_months now reference)%Q.
Proof.
  intros H. unfold age_months. apply Qle_shift_div_l; [reflexivity|].
  rewrite Qmult_0_l. change 0%Q with (inject_Z 0). by rewrite <- Zle_Qle.
Qed.

(** C6 (as the code has it). With a reference date, the boost is 1.0 when
    the age exceeds 24 months, and [1 / (1 + multiplier * age)] otherwise
    (the multiplier being 0.1 by default). When the reference date is not
    later than the day of the call and the multiplier is not negative, the
    boost lies in (0, 1]. *)
Theorem C6_recency_decay (config : Config) (now : datetime) (record : Record_)
    (reference : datetime) :
  reference_date record = Some reference ->
  let age := age_months now reference in
  let multiplier := default (1 # 10)%Q (RECENCY_BOOST_MULTIPLIER config) in
  ((24 < age)%Q -> compute_recency_boost config now record = Ok 1%Q)
  /\ ((age <= 24)%Q -> ~ (1 + multiplier * age == 0)%Q ->
      compute_recency_boost config now record = Ok (1 / (1 + multiplier * age))%Q)
  /\ ((0 <= multiplier)%Q -> 0 <= timedelta_days now reference ->
      exists v, compute_recency_boost config now record = Ok v
                /\ (0 < v)%Q /\ (v <= 1)%Q).
Proof.
  intros Href age multiplier. unfold compute_recency_boost. rewrite Href.
  fold age multiplier. repeat split.
  - intros H. apply Qlt_bool_iff in H. by rewrite H.
  - intros H Hnz. apply Qlt_bool_false in H. rewrite H. by apply pydiv_nonzero.
  - intros Hm Hdays. destruct (Qlt_bool 24 age) eqn:E.
    + exists 1%Q. split; [reflexivity|]. split; [reflexivity | apply Qle_refl].
    + assert (0 <= age)%Q as Hage by by apply age_months_nonneg.
      assert (0 <= multiplier * age)%Q as Hprod by by apply Qmult_le_0_compat.
      assert (0 < 1 + multiplier * age)%Q as Hpos by lra.
      rewrite pydiv_nonzero by lra.
      eexists. split; [reflexivity|]. split.
      * unfold Qdiv. rewrite Qmult_1_l. by apply Qinv_lt_0_compat.
      * apply Qle_shift_div_r; [done | lra].
Qed.

Lemma C6_recency_decay_witness :
  exists v, compute_recency_boost example_config (midday 2024 6 1) example_record = Ok v
            /\ (0 < v)%Q /\ (v <= 1)%Q.
Proof.
  refine (proj2 (proj2 (C6_recency_decay example_config (midday 2024 6 1) example_record
                   {| year := 2024; month := 1; day := 1;
                      hour := 0; minute := 0; second := 0; microsecond := 0 |}
                   _)) _ _).
  - reflexivity.
  - vm_compute. discriminate.
  - vm_compute. discriminate.
Defined.

(** C6 (as stated) fails: the boost of a record dated after the day of the
    call is above 1. *)
Lemma C6_counterexample :
  let now := midday 2024 6 1 in
  let record := with_dates (Some "2024-06-02") None in
  (exists reference, reference_date record = Some reference)
  /\ exists v, compute_recency_boost example_config now record = Ok v
               /\ (1 < v)%Q.
Proof.
  split; [eexists; reflexivity|].
  eexists. split; [vm_compute; reflexivity | reflexivity].
Qed.

(** ** C10: the scoring call and the clock *)

Lemma strptime_midnight (s : string) (d : datetime) :
  strptime s = Ok d -> midnight d.
Proof.
  unfold strptime. destruct (match_format s) as [[[[y m] dd] rest]|]; [|done].
  destruct (negb (String.eqb rest "")); [done|].
  destruct (_ && _); [|done].
  intros [= <-]. by repeat split.
Qed.

Lemma datetime_min_cases (a b : datetime) :
  datetime_min a b = a \/ datetime_min a b = b.
Proof. unfold datetime_min. destruct (datetime_ltb b a); auto. Qed.

Lemma reference_date_midnight (record : Record_) (reference : datetime) :
  reference_date record = Some reference -> midnight reference.
Proof.
  rewrite reference_date_cases. simpl.
  destruct (truthy _), (truthy _); try done.
  - destruct (strptime (substitute_day _)) as [dp|] eqn:EP; [|done].
    destruct (strptime (default "" _)) as [de|] eqn:EE; [|done].
    intros [= <-].
    destruct (datetime_min_cases dp de) as [-> | ->];
      eauto using strptime_midnight.
  - destruct (strptime _) as [d|] eqn:EP; [|done].
    intros [= <-]. eauto using strptime_midnight.
  - destruct (strptime _) as [d|] eqn:EP; [|done].
    intros [= <-]. eauto using strptime_midnight.
Qed.

(** The days of [now - reference] are the days between the two dates. *)
Lemma timedelta_days_midnight (now reference : datetime) :
  valid_datetime now -> midnight reference ->
  timedelta_days now reference = toordinal now - toordinal reference.
Proof.
  intros (_ & _ & _ & Hh & Hm & Hs & Hus) (Rh & Rm & Rs & Rus).
  unfold timedelta_days, microseconds. rewrite Rh, Rm, Rs, Rus.
  set (tod := hour now * 3600000000 + minute now * 60000000
              + second now * 1000000 + microsecond now).
  replace (((toordinal now * 24 + hour now) * 60 + minute now) * 60000000 +
           second now * 1000000 + microsecond now -
           (((toordinal reference * 24 + 0) * 60 + 0) * 60000000 + 0 * 1000000 + 0))
    with ((toordinal now - toordinal reference) * 86400000000 + tod)
    by (subst tod; lia).
  rewrite Z.div_add_l by lia.
  rewrite Z.div_small by (subst tod; lia). lia.
Qed.

Lemma recency_same_day (config : Config) (record : Record_) (now1 now2 : datetime) :
  valid_datetime now1 -> valid_datetime now2 ->
  year now1 = year now2 -> month now1 = month now2 -> day now1 = day now2 ->
  compute_recency_boost config now1 record = compute_recency_boost config now2 record.
Proof.
  intros V1 V2 Hy Hm Hd. unfold compute_recency_boost.
  destruct (reference_date record) as [reference|] eqn:E; [|done].
  apply reference_date_midnight in E.
  unfold age_months.
  rewrite !timedelta_days_midnight by done.
  unfold toordinal. by rewrite Hy, Hm, Hd.
Qed.

(** C10 (as the code has it). The scoring call is a function of the record,
    the configuration and the day on which it is made: two calls on the same
    record and configuration, on the same day, give the same result, which
    for a record with no usable date does not depend on the clock at all. *)
Theorem C10_deterministic_within_a_day (config : Config) (record : Record_)
    (now1 now2 : datetime) :
  (valid_datetime now1 -> valid_datetime now2 ->
   year now1 = year now2 -> month now1 = month now2 -> day now1 = day now2 ->
   compute_boost_factors config now1 record = compute_boost_factors config now2 record)
  /\ (reference_date record = None ->
      compute_boost_factors config now1 record = compute_boost_factors config now2 record).
Proof.
  split.
  - intros V1 V2 Hy Hm Hd. unfold compute_boost_factors.
    by rewrite (recency_same_day config record now1 now2).
  - intros Href. unfold compute_boost_factors, compute_recency_boost.
    by rewrite Href.
Qed.

Lemma C10_deterministic_within_a_day_witness :
  compute_boost_factors example_config (midday 2024 6 1) example_record
  = compute_boost_factors example_config
      {| year := 2024; month := 6; day := 1;
         hour := 23; minute := 59; second := 59; microsecond := 999999 |}
      example_record.
Proof.
  apply (proj1 (C10_deterministic_within_a_day example_config example_record
                  (midday 2024 6 1)
                  {| year := 2024; month := 6; day := 1;
                     hour := 23; minute := 59; second := 59; microsecond := 999999 |}));
    try reflexivity; repeat split; vm_compute; congruence.
Defined.

(** C10 (as stated) fails: the same record and configuration, scored a
    month apart, get different recency boosts. *)
Lemma C10_counterexample :
  exists v1 v2,
    get_field (compute_boost_factors example_config (midday 2024 6 1) example_record)
      "recency_boost" = Some v1
    /\ get_field (compute_boost_factors example_config (midday 2024 7 1) example_record)
         "recency_boost" = Some v2
    /\ ~ (v1 == v2)%Q.
Proof.
  eexists. eexists.
  split; [vm_compute; reflexivity|]. split; [vm_compute; reflexivity|].
  intros H. discriminate H.
Qed.

(** ** Sums of weights *)





(** ** Normalised weights *)

Lemma normalize_weights_lookup (weights : gmap string Q) (total_weight : Q) :
  ~ (total_weight == 0)%Q ->
  exists normalized_weights,
    normalize_weights weights total_weight = Ok normalized_weights
    /\ forall k, normalized_weights !! k
                 = (fun v => (v / total_weight)%Q) <$> weights !! k.
Proof.
  intros Hnz. unfold normalize_weights.
  set (items := map _ (map_to_list weights)).
  assert (forall k rv, (k, rv) ∈ items ->
            exists v, weights !! k = Some v /\ rv = Ok (v / total_weight)%Q) as Hitems.
  { intros k rv Hin. subst items.
    apply list_elem_of_In, in_map_iff in Hin as ([k' v] & [= <- <-] & Hin).
    apply list_elem_of_In, elem_of_map_to_list in Hin.
    exists v. split; [done|]. by apply pydiv_nonzero. }
  destruct (build_dict_Ok items ∅) as [nw Hnw].
  { apply Forall_forall. intros [k rv] Hin.
    destruct (Hitems k rv Hin) as (v & _ & ->). by eexists. }
  exists nw. split; [done|]. intros k.
  destruct (decide (k ∈ items.*1)) as [Hin|Hnin].
  - destruct (build_dict_in items ∅ nw k Hnw Hin) as (rv & v & Hrv & -> & ->).
    destruct (Hitems k _ Hrv) as (v0 & -> & [= ->]). done.
  - rewrite (build_dict_notin items ∅ nw k Hnw Hnin), lookup_empty.
    destruct (weights !! k) as [v|] eqn:Hk; [|done].
    exfalso. apply Hnin. subst items.
    apply list_elem_of_fmap. exists (k, pydiv v total_weight). split; [done|].
    apply list_elem_of_In, in_map_iff. exists (k, v). split; [done|].
    by apply list_elem_of_In, elem_of_map_to_list.
Qed.


Lemma weighted_sum_Ok (boost_factors normalized_weights : gmap string Q) :
  is_Some (boost_factors !! "refereed_boost") ->
  is_Some (normalized_weights !! "refereed_boost") ->
  is_Some (boost_factors !! "doctype_boost") ->
  is_Some (normalized_weights !! "doctype_boost") ->
  is_Some (boost_factors !! "recency_boost") ->
  is_Some (normalized_weights !! "recency_boost") ->
  is_Ok (weighted_sum boost_factors normalized_weights).
Proof.
  intros [r Hr] [wr Hwr] [d Hd] [wd Hwd] [c Hc] [wc Hwc].
  unfold weighted_sum, getitem. rewrite Hr, Hwr, Hd, Hwd, Hc, Hwc. simpl.
  by eexists.
Qed.


(** ** The keys of the result *)

Lemma boost_factor_not_weight (c : string) : "boost_factor" <> c +:+ "_weight".
Proof.
  intros H. symmetry in H.
  do 5 (destruct c as [|? c];
        [ rewrite append_nil in H; discriminate H
        | rewrite append_cons in H; injection H as _ H ]).
  destruct c as [|? c]; [rewrite append_nil in H; discriminate H|].
  rewrite append_cons in H. injection H as _ H.
  do 6 (destruct c as [|? c];
        [ rewrite append_nil in H; discriminate H
        | rewrite append_cons in H; injection H as _ H ]).
  destruct c; [rewrite append_nil in H | rewrite append_cons in H]; discriminate H.
Qed.

Lemma boost_factor_not_final_boost (c : string) :
  "boost_factor" <> c +:+ "_final_boost".
Proof.
  intros H. symmetry in H.
  destruct c as [|? c]; [rewrite append_nil in H; discriminate H|].
  rewrite append_cons in H. injection H as _ H.
  do 11 (destruct c as [|? c];
        [ rewrite append_nil in H; discriminate H
        | rewrite append_cons in H; injection H as _ H ]).
  destruct c; [rewrite append_nil in H | rewrite append_cons in H]; discriminate H.
Qed.

Lemma compute_collection_weights_shape (config : Config) (record : Record_) :
  exists val : string -> Q,
    compute_collection_weights config record
    = Ok (foldl (fun acc c => <[c +:+ "_weight" := val c]> acc) ∅
                (default default_collections (COLLECTIONS config))).
Proof.
  unfold compute_collection_weights.
  case_bool_decide; [by exists (fun _ => 1%Q)|].
  destruct (sorted_set _) as [|x t]; [by exists (fun _ => 1%Q)|].
  destruct (rank_to_weight_Ok (rev (x :: t)) ∅) as [rank_to_weight ->]. simpl.
  case_bool_decide; [by exists (fun _ => 1%Q)|].
  by eexists.
Qed.

Lemma compute_collection_weights_Ok (config : Config) (record : Record_) :
  is_Ok (compute_collection_weights config record).
Proof.
  destruct (compute_collection_weights_shape config record) as [val ->].
  by eexists.
Qed.

Lemma collection_weights_has_key (config : Config) (record : Record_)
    (collection_weights : BoostFactors) (c : string) :
  compute_collection_weights config record = Ok collection_weights ->
  c ∈ default default_collections (COLLECTIONS config) ->
  is_Some (collection_weights !! (c +:+ "_weight")).
Proof.
  destruct (compute_collection_weights_shape config record) as [val ->].
  intros [= <-] Hin.
  destruct (foldl_insert_in (fun c => c +:+ "_weight") val
              (default default_collections (COLLECTIONS config)) ∅
              (c +:+ "_weight")) as (x & _ & _ & ->); [|done].
  by apply list_elem_of_In, (in_map (fun c => c +:+ "_weight")), list_elem_of_In.
Qed.

Lemma collection_weights_no_boost_factor (config : Config) (record : Record_)
    (collection_weights : BoostFactors) :
  compute_collection_weights config record = Ok collection_weights ->
  collection_weights !! "boost_factor" = None.
Proof.
  destruct (compute_collection_weights_shape config record) as [val ->].
  intros [= <-].
  rewrite (foldl_insert_notin (fun c => c +:+ "_weight") val); [done|].
  intros Hin. apply list_elem_of_In, in_map_iff in Hin as (c & Hc & _).
  by apply (boost_factor_not_weight c).
Qed.

Lemma final_boosts_no_boost_factor (config : Config) (boost_factors : BoostFactors)
    (record : Record_) (final_boosts : BoostFactors) :
  compute_final_boost config boost_factors record = Ok final_boosts ->
  final_boosts !! "boost_factor" = None.
Proof.
  unfold compute_final_boost. intros H.
  apply bind_Ok_inv in H as (boost_factor & _ & H).
  apply bind_Ok_inv in H as (collection_weights & _ & H).
  rewrite (build_dict_notin _ _ _ "boost_factor" H); [done|].
  intros Hin. apply list_elem_of_fmap in Hin as ([k rv] & Hk & Hin).
  apply list_elem_of_In, in_map_iff in Hin as (c & [= <- _] & _).
  simpl in Hk. by apply (boost_factor_not_final_boost c).
Qed.


(** ** C8: the range of the boost factor *)

Section BoostFactorRange.
Variables (config : Config) (now : datetime) (record : Record_).
Variables (weights : gmap string Q) (d c : Q).
Hypothesis Hweights : BOOST_FACTOR_WEIGHTS config = Some weights.
Hypothesis Hnonneg : forall k v, weights !! k = Some v -> (0 <= v)%Q.
Hypothesis Hdoctype : compute_doctype_boost config record = Ok d.
Hypothesis Hrecency : compute_recency_boost config now record = Ok c.

Let r : Q := compute_refereed_boost record.
Let basic : gmap string Q :=
  <["recency_boost" := c]> (<["doctype_boost" := d]> (<["refereed_boost" := r]> ∅)).

(** The scoring call, once its three boosts are known. *)
Lemma compute_boost_factors_unfold :
  compute_boost_factors config now record
  = (normalized_weights ← normalize_weights weights (sum_values weights);
     boost_factor ← weighted_sum basic normalized_weights;
     collection_weights ← compute_collection_weights config record;
     final_boosts ←
       compute_final_boost config
         (update (<["boost_factor" := boost_factor]> basic) collection_weights)
         record;
     Ok (update (update (<["boost_factor" := boost_factor]> basic)
                        collection_weights) final_boosts)).
Proof.
  unfold compute_boost_factors. rewrite Hdoctype, Hrecency, Hweights. done.
Qed.


Lemma compute_boost_factors_returns :
  (0 < sum_values weights)%Q ->
  is_Some (weights !! "refereed_boost") ->
  is_Some (weights !! "doctype_boost") ->
  is_Some (weights !! "recency_boost") ->
  is_Ok (compute_boost_factors config now record).
Proof.
  intros Hpos Hr Hd Hc. rewrite compute_boost_factors_unfold.
  assert (~ (sum_values weights == 0)%Q) as Hnz by lra.
  destruct (normalize_weights_lookup weights _ Hnz) as (nw & Hnw & Hlook).
  assert (forall k, is_Some (weights !! k) -> is_Some (nw !! k)) as Hkeys.
  { intros k [v Hv]. rewrite Hlook, Hv. by eexists. }
  assert (forall k, is_Some (basic !! k) ->
            forall b cw, is_Some (update (<["boost_factor" := b]> basic) cw !! k))
    as Hbasic.
  { intros k Hk b cw. unfold update. apply lookup_union_is_Some. right.
    destruct (decide ("boost_factor" = k)) as [<-|Hne].
    - rewrite lookup_insert_eq. by eexists.
    - by rewrite lookup_insert_ne. }
  assert (is_Some (basic !! "refereed_boost")) as Br
    by (subst basic; rewrite basic_boosts_refereed; by eexists).
  assert (is_Some (basic !! "doctype_boost")) as Bd
    by (subst basic; rewrite basic_boosts_doctype; by eexists).
  assert (is_Some (basic !! "recency_boost")) as Bc
    by (subst basic; rewrite basic_boosts_recency; by eexists).
  rewrite Hnw. simpl.
  destruct (weighted_sum_Ok basic nw) as [b ->]; auto. simpl.
  destruct (compute_collection_weights_Ok config record) as [cw Hcw].
  rewrite Hcw. simpl.
  unfold compute_final_boost. rewrite Hweights. simpl.
  assert (weights <> ∅) as Hne.
  { intros ->. destruct Hr as [v Hv]. by rewrite lookup_empty in Hv. }
  rewrite bool_decide_eq_false_2 by done.
  apply Qlt_bool_iff in Hpos. rewrite Hpos, Hnw. simpl.
  destruct (weighted_sum_Ok (update (<["boost_factor" := b]> basic) cw) nw)
    as [b' ->]; auto. simpl.
  rewrite Hcw. simpl.
  destruct (build_dict_Ok
              (map (fun collection =>
                      (collection +:+ "_final_boost",
                       w ← getitem cw (collection +:+ "_weight"); Ok (w * b')%Q))
                   (default default_collections (COLLECTIONS config))) ∅)
    as [fb ->]; [|by eexists].
  apply Forall_forall. intros item Hin.
  apply list_elem_of_In, in_map_iff in Hin as (x & <- & Hx). simpl.
  destruct (collection_weights_has_key config record cw x Hcw) as [w Hw].
  { by apply list_elem_of_In. }
  unfold getitem. rewrite Hw. by eexists.
Qed.
End BoostFactorRange.


Lemma default_weights_nonneg (k : string) (v : Q) :
  default_weights !! k = Some v -> (0 <= v)%Q.
Proof.
  unfold default_weights. intros H.
  repeat (apply lookup_insert_Some in H as [[_ <-]|[_ H]]; [discriminate|]).
  by rewrite lookup_empty in H.
Qed.


(** ** The doctype scores of two ranks or more

    The part of C3 that the code does have: with [k >= 2] distinct ranks,
    the i-th smallest maps to [1 - i/(k-1)]. *)

Lemma insert_sorted_elem (x y : Z) (l : list Z) :
  y ∈ insert_sorted x l <-> y = x \/ y ∈ l.
Proof.
  induction l as [|z t IH]; simpl.
  - rewrite list_elem_of_singleton, elem_of_nil. tauto.
  - destruct (x <? z) eqn:E1; [|destruct (x =? z) eqn:E2].
    + rewrite !elem_of_cons. tauto.
    + apply Z.eqb_eq in E2. subst z. rewrite !elem_of_cons. tauto.
    + rewrite !elem_of_cons, IH. tauto.
Qed.

Lemma sorted_set_elem (y : Z) (l : list Z) : y ∈ sorted_set l <-> y ∈ l.
Proof.
  unfold sorted_set. induction l as [|x t IH]; simpl; [done|].
  rewrite insert_sorted_elem, IH, elem_of_cons. tauto.
Qed.

Lemma insert_sorted_sorted (x : Z) (l : list Z) :
  StronglySorted Z.lt l -> StronglySorted Z.lt (insert_sorted x l).
Proof.
  induction l as [|z t IH]; simpl; intros Hs.
  - by repeat constructor.
  - apply StronglySorted_inv in Hs as [Ht Hz].
    destruct (x <? z) eqn:E1; [|destruct (x =? z) eqn:E2].
    + apply Z.ltb_lt in E1. constructor; [by constructor|].
      constructor; [done|]. eapply Forall_impl; [exact Hz|]. simpl. lia.
    + by constructor.
    + apply Z.ltb_ge in E1. apply Z.eqb_neq in E2.
      constructor; [by apply IH|].
      apply Forall_forall. intros y Hy. apply insert_sorted_elem in Hy as [->|Hy].
      * lia.
      * by eapply Forall_forall in Hz.
Qed.

Lemma sorted_set_sorted (l : list Z) : StronglySorted Z.lt (sorted_set l).
Proof.
  unfold sorted_set. induction l as [|x t IH]; simpl; [constructor|].
  by apply insert_sorted_sorted.
Qed.

Lemma sorted_NoDup (l : list Z) : StronglySorted Z.lt l -> NoDup l.
Proof.
  induction 1 as [|x t Ht IH Hx]; [constructor|].
  apply NoDup_cons. split; [|done].
  intros Hin. eapply Forall_forall in Hx; [|exact Hin]. lia.
Qed.

Lemma enumerate_from_elem {A} (n i : nat) (x : A) (l : list A) :
  (i, x) ∈ enumerate_from n l <-> (n <= i)%nat /\ l !! (i - n)%nat = Some x.
Proof.
  revert n. induction l as [|y t IH]; intros n; simpl.
  - rewrite elem_of_nil. split; [done | by intros [_ ?]].
  - rewrite elem_of_cons, IH. split.
    + intros [[= -> ->]|[Hle Hl]].
      * split; [lia|]. by rewrite Nat.sub_diag.
      * split; [lia|]. by replace (i - n)%nat with (S (i - S n)) by lia.
    + intros [Hle Hl]. destruct (decide (i = n)) as [->|Hne].
      * left. rewrite Nat.sub_diag in Hl. simpl in Hl. congruence.
      * right. split; [lia|].
        by replace (i - n)%nat with (S (i - S n)) in Hl by lia.
Qed.

Lemma rank_to_score_lookup (unique_ranks : list Z) :
  NoDup unique_ranks -> length unique_ranks <> 1%nat ->
  exists rank_to_score,
    build_dict ∅ (rank_to_score_items unique_ranks) = Ok rank_to_score
    /\ forall i rank,
         unique_ranks !! i = Some rank ->
         rank_to_score !! rank
         = Some (1 - Qnat i / (len unique_ranks - 1))%Q.
Proof.
  intros Hnd Hlen.
  pose proof (len_minus_one_nonzero unique_ranks Hlen) as Hnz.
  assert (forall rank rv, (rank, rv) ∈ rank_to_score_items unique_ranks ->
            exists i, unique_ranks !! i = Some rank
                      /\ rv = Ok (1 - Qnat i / (len unique_ranks - 1))%Q) as Hitems.
  { intros rank rv Hin. unfold rank_to_score_items in Hin.
    apply list_elem_of_In, in_map_iff in Hin as ([i rank'] & [= <- <-] & Hin).
    apply list_elem_of_In, enumerate_from_elem in Hin as [_ Hl].
    rewrite Nat.sub_0_r in Hl. exists i. split; [done|].
    by rewrite pydiv_nonzero. }
  destruct (build_dict_Ok (rank_to_score_items unique_ranks) ∅) as [rts Hrts].
  { apply Forall_forall. intros [rank rv] Hin.
    destruct (Hitems rank rv Hin) as (i & _ & ->). by eexists. }
  exists rts. split; [done|]. intros i rank Hi.
  destruct (build_dict_in _ ∅ rts rank Hrts) as (rv & v & Hin & -> & ->).
  - apply list_elem_of_fmap.
    exists (rank, x ← pydiv (Qnat i) (len unique_ranks - 1)%Q; Ok (1 - x)%Q).
    split; [done|]. unfold rank_to_score_items.
    apply list_elem_of_In, in_map_iff. exists (i, rank). split; [done|].
    apply list_elem_of_In, enumerate_from_elem. split; [lia|].
    by rewrite Nat.sub_0_r.
  - destruct (Hitems rank _ Hin) as (j & Hj & [= ->]).
    by rewrite (NoDup_lookup _ _ _ _ Hnd Hi Hj).
Qed.

(** With two distinct ranks or more, the doctype that holds the i-th
    smallest gets [1 - i/(k-1)], and a doctype without a rank gets 0.0. *)
Lemma doctype_boost_spaced (config : Config) (record : Record_)
    (doctype_rank : gmap string Z) :
  DOCTYPE_RANKING config = Some doctype_rank ->
  let unique_ranks := sorted_set (map_to_list doctype_rank).*2 in
  length unique_ranks <> 1%nat ->
  StronglySorted Z.lt unique_ranks
  /\ (forall rank, rank ∈ unique_ranks <-> exists name, doctype_rank !! name = Some rank)
  /\ (forall rank i,
        doctype_rank !! record_doctype record = Some rank ->
        unique_ranks !! i = Some rank ->
        compute_doctype_boost config record
        = Ok (1 - Qnat i / (len unique_ranks - 1))%Q)
  /\ (doctype_rank !! record_doctype record = None ->
      compute_doctype_boost config record = Ok 0%Q).
Proof.
  intros Hcfg unique_ranks Hlen.
  assert (forall rank, rank ∈ unique_ranks <-> exists name, doctype_rank !! name = Some rank)
    as Hmem.
  { intros rank. subst unique_ranks. rewrite sorted_set_elem, list_elem_of_fmap. split.
    - intros ([name rank'] & -> & Hin). apply elem_of_map_to_list in Hin. eauto.
    - intros [name Hname]. exists (name, rank). split; [done|].
      by apply elem_of_map_to_list. }
  split; [apply sorted_set_sorted|]. split; [done|].
  pose proof (sorted_NoDup _ (sorted_set_sorted (map_to_list doctype_rank).*2)) as Hnd.
  destruct (rank_to_score_lookup unique_ranks Hnd Hlen) as (rts & Hrts & Hlook).
  set (items := map (fun '(doctype_name, rank) =>
                       (doctype_name, getitem_rank rts rank))
                    (map_to_list doctype_rank)).
  assert (forall name rv, (name, rv) ∈ items ->
            exists rank i, doctype_rank !! name = Some rank
                           /\ unique_ranks !! i = Some rank
                           /\ rv = Ok (1 - Qnat i / (len unique_ranks - 1))%Q) as Hitems.
  { intros name rv Hin. subst items.
    apply list_elem_of_In, in_map_iff in Hin as ([name' rank] & [= <- <-] & Hin).
    apply list_elem_of_In, elem_of_map_to_list in Hin.
    assert (rank ∈ unique_ranks) as Hr by (apply Hmem; eauto).
    apply list_elem_of_lookup_1 in Hr as [i Hi].
    exists rank, i. split; [done|]. split; [done|].
    unfold getitem_rank. by rewrite (Hlook i rank Hi). }
  destruct (build_dict_Ok items ∅) as [scores Hscores].
  { apply Forall_forall. intros [name rv] Hin.
    destruct (Hitems name rv Hin) as (rank & i & _ & _ & ->). by eexists. }
  assert (compute_doctype_boost config record
          = Ok (default 0%Q (scores !! record_doctype record))) as Hcompute.
  { unfold compute_doctype_boost. rewrite Hcfg.
    case_bool_decide as Hempty.
    - subst items. rewrite Hempty, map_to_list_empty in Hscores.
      injection Hscores as <-. by rewrite lookup_empty.
    - fold unique_ranks. rewrite Hrts. simpl. fold items. by rewrite Hscores. }
  split.
  - intros rank i Hrank Hi. rewrite Hcompute. f_equal.
    destruct (build_dict_in items ∅ scores (record_doctype record) Hscores)
      as (rv & v & Hin & -> & ->).
    + apply list_elem_of_fmap.
      exists (record_doctype record, getitem_rank rts rank). split; [done|].
      subst items. apply list_elem_of_In, in_map_iff.
      exists (record_doctype record, rank). split; [done|].
      by apply list_elem_of_In, elem_of_map_to_list.
    + destruct (Hitems _ _ Hin) as (rank' & j & Hrank' & Hj & [= ->]). simpl.
      rewrite Hrank in Hrank'. injection Hrank' as <-.
      by rewrite (NoDup_lookup _ _ _ _ Hnd Hi Hj).
  - intros Hnone. rewrite Hcompute.
    rewrite (build_dict_notin items ∅ scores _ Hscores); [by rewrite lookup_empty|].
    intros Hin. apply list_elem_of_fmap in Hin as ([name rv] & Hname & Hin).
    simpl in Hname. subst name.
    destruct (Hitems _ _ Hin) as (rank & _ & Hrank & _). congruence.
Qed.

Lemma lowest_rank_score (q : Q) : (1 - Qnat 0 / q == 1)%Q.
Proof.
  unfold Qnat. simpl. unfold Qdiv. rewrite Qmult_0_l. apply Qplus_0_r.
Qed.

(** ** The end-to-end example of the specification *)

Example end_to_end :
  let result := compute_boost_factors example_config (midday 2024 6 1) example_record in
  field_is result "refereed_boost" 1 = true
  /\ field_is result "doctype_boost" 1 = true
  /\ field_is result "boost_factor" 1 = true
  /\ field_is result "astronomy_weight" 1 = true
  /\ field_is result "physics_weight" (1 # 10) = true
  /\ field_is result "astronomy_final_boost" 1 = true
  /\ field_is result "physics_final_boost" (1 # 10) = true.
Proof. repeat split; vm_compute; reflexivity. Qed.


(** * Further properties of the code *)

(** ** The refereed boost *)



(** ** The doctype boost *)

(** X2. With two distinct ranks or more in [DOCTYPE_RANKING], the ranks in
    ascending order being [unique_ranks], a record whose doctype holds the
    i-th of them gets [1 - i/(k-1)], and a record whose doctype has no rank
    gets 0.0. *)
Theorem X2_doctype_score_by_rank (config : Config) (record : Record_)
    (doctype_rank : gmap string Z) :
  DOCTYPE_RANKING config = Some doctype_rank ->
  let unique_ranks := sorted_set (map_to_list doctype_rank).*2 in
  length unique_ranks <> 1%nat ->
  StronglySorted Z.lt unique_ranks
  /\ (forall rank, rank ∈ unique_ranks <-> exists name, doctype_rank !! name = Some rank)
  /\ (forall rank i,
        doctype_rank !! record_doctype record = Some rank ->
        unique_ranks !! i = Some rank ->
        compute_doctype_boost config record
        = Ok (1 - Qnat i / (len unique_ranks - 1))%Q)
  /\ (doctype_rank !! record_doctype record = None ->
      compute_doctype_boost config record = Ok 0%Q).
Proof. exact (doctype_boost_spaced config record doctype_rank). Qed.

Lemma X2_doctype_score_by_rank_witness :
  compute_doctype_boost example_config
    (with_tags None None) = Ok (1 - Qnat 0 / (len [1; 2] - 1))%Q.
Proof.
  refine (proj1 (proj2 (proj2 (X2_doctype_score_by_rank example_config (with_tags None None)
                   (<["article" := 1]> (<["abstract" := 2]> ∅)) eq_refl _)))
            1 0%nat _ _).
  - vm_compute. discriminate.
  - reflexivity.
  - reflexivity.
Defined.

Lemma index_ratio_range (i k : nat) :
  (i < k)%nat -> (2 <= k)%nat ->
  (0 <= Qnat i / (inject_Z (Z.of_nat k) - 1) <= 1)%Q.
Proof.
  intros Hi Hk.
  assert (0 < inject_Z (Z.of_nat k) - 1)%Q as Hpos.
  { unfold Qlt, Qminus, Qplus. simpl. lia. }
  assert (0 <= Qnat i)%Q as Hi0 by (unfold Qnat, Qle; simpl; lia).
  assert (Qnat i <= inject_Z (Z.of_nat k) - 1)%Q as Hik.
  { unfold Qnat, Qle, Qminus, Qplus. simpl. lia. }
  split.
  - apply Qle_shift_div_l; [done|]. by rewrite Qmult_0_l.
  - apply Qle_shift_div_r; [done|]. by rewrite Qmult_1_l.
Qed.



(** X4. A score that [compute_doctype_boost] returns is in [0, 1]. *)
Theorem X4_doctype_boost_range (config : Config) (record : Record_) (v : Q) :
  compute_doctype_boost config record = Ok v -> (0 <= v <= 1)%Q.
Proof.
  intros Hv.
  destruct (DOCTYPE_RANKING config) as [doctype_rank|] eqn:Hcfg.
  - destruct (decide (length (sorted_set (map_to_list doctype_rank).*2) = 1%nat))
      as [Hlen|Hlen].
    + unfold compute_doctype_boost in Hv. rewrite Hcfg in Hv.
      case_bool_decide as Hempty.
      { subst doctype_rank. by rewrite map_to_list_empty in Hlen. }
      by destruct (sorted_set _) as [|x [|y t]].
    + destruct (doctype_boost_spaced config record doctype_rank Hcfg Hlen)
        as (_ & Hmem & Hsome & Hnone).
      destruct (doctype_rank !! record_doctype record) as [rank|] eqn:Hrank.
      * assert (rank ∈ sorted_set (map_to_list doctype_rank).*2) as Hin
          by (apply Hmem; eauto).
        apply list_elem_of_lookup_1 in Hin as [i Hi].
        rewrite (Hsome rank i eq_refl Hi) in Hv. injection Hv as <-.
        apply lookup_lt_Some in Hi.
        pose proof (index_ratio_range i _ Hi ltac:(lia)) as [H0 H1].
        unfold len. split; lra.
      * rewrite (Hnone eq_refl) in Hv. injection Hv as <-. split; discriminate.
  - unfold compute_doctype_boost in Hv. rewrite Hcfg in Hv.
    injection Hv as <-. split; discriminate.
Qed.

Lemma X4_doctype_boost_range_witness : (0 <= 1 # 2 <= 1)%Q.
Proof.
  apply (X4_doctype_boost_range
           {| DOCTYPE_RANKING :=
                Some (<["article" := 1]> (<["abstract" := 2]> (<["erratum" := 5]> ∅)));
              COLLECTION_RANKINGS := None; COLLECTIONS := None;
              BOOST_FACTOR_WEIGHTS := None; RECENCY_BOOST_MULTIPLIER := None |}
           {| bibcode := None; scix_id := None;
              bib_data :=
                Some {| bd_bibcode := None; bd_scix_id := None;
                        bd_doctype := Some "Abstract"; bd_pubdate := None;
                        bd_entry_date := None; bd_database := None;
                        bd_refereed := None |};
              metrics := None; classifications := None |}).
  vm_compute. reflexivity.
Defined.





(** ** The recency boost *)

Lemma age_months_cutoff (now reference : datetime) :
  (24 < age_months now reference)%Q <-> 731 <= timedelta_days now reference.
Proof.
  unfold age_months. generalize (timedelta_days now reference). intros d.
  unfold Qlt, Qdiv, Qmult, Qinv. simpl. lia.
Qed.

(** The boost is switched off from the 731st day on: with a reference date,
    [compute_recency_boost] returns 1.0 when [(now - reference).days] is 731
    or more, and the value of the decay formula when it is 730 or less. *)
Lemma recency_cutoff_in_days (config : Config) (now : datetime)
    (record : Record_) (reference : datetime) :
  reference_date record = Some reference ->
  let days := timedelta_days now reference in
  let multiplier := default (1 # 10)%Q (RECENCY_BOOST_MULTIPLIER config) in
  (731 <= days -> compute_recency_boost config now record = Ok 1%Q)
  /\ (days <= 730 ->
      compute_recency_boost config now record
      = pydiv 1 (1 + multiplier * (inject_Z days / (3044 # 100)))%Q).
Proof.
  intros Href days multiplier. unfold compute_recency_boost. rewrite Href.
  split; intros Hd.
  - apply age_months_cutoff, Qlt_bool_iff in Hd. by rewrite Hd.
  - destruct (Qlt_bool 24 (age_months now reference)) eqn:E; [|done].
    apply Qlt_bool_iff, age_months_cutoff in E. subst days. lia.
Qed.

(** X6. The recency boost is switched off from the 731st day on: with a
    reference date, [compute_recency_boost] returns 1.0 when
    [(now - reference).days] is 731 or more, and the value of the decay
    formula when it is 730 or less. *)
Theorem X6_recency_cutoff_in_days (config : Config) (now : datetime)
    (record : Record_) (reference : datetime) :
  reference_date record = Some reference ->
  let days := timedelta_days now reference in
  let multiplier := default (1 # 10)%Q (RECENCY_BOOST_MULTIPLIER config) in
  (731 <= days -> compute_recency_boost config now record = Ok 1%Q)
  /\ (days <= 730 ->
      compute_recency_boost config now record
      = pydiv 1 (1 + multiplier * (inject_Z days / (3044 # 100)))%Q).
Proof. exact (recency_cutoff_in_days config now record reference). Qed.

Lemma X6_recency_cutoff_in_days_witness :
  compute_recency_boost example_config (midday 2026 1 2) example_record = Ok 1%Q.
Proof.
  refine (proj1 (X6_recency_cutoff_in_days example_config (midday 2026 1 2) example_record
                   {| year := 2024; month := 1; day := 1;
                      hour := 0; minute := 0; second := 0; microsecond := 0 |} _) _).
  - reflexivity.
  - vm_compute. discriminate.
Defined.



(** X8. Within the 730 days, and with a multiplier that is not negative, an
    older reference date never has the higher boost. *)
Theorem X8_recency_boost_decreases_with_age (config : Config) (now : datetime)
    (record1 record2 : Record_) (reference1 reference2 : datetime) :
  (0 <= default (1 # 10) (RECENCY_BOOST_MULTIPLIER config))%Q ->
  reference_date record1 = Some reference1 ->
  reference_date record2 = Some reference2 ->
  0 <= timedelta_days now reference1 ->
  timedelta_days now reference1 <= timedelta_days now reference2 ->
  timedelta_days now reference2 <= 730 ->
  exists v1 v2,
    compute_recency_boost config now record1 = Ok v1
    /\ compute_recency_boost config now record2 = Ok v2
    /\ (v2 <= v1)%Q.
Proof.
  intros Hm H1 H2 Hd0 Hd12 Hd2.
  destruct (recency_cutoff_in_days config now record1 reference1 H1) as [_ E1].
  destruct (recency_cutoff_in_days config now record2 reference2 H2) as [_ E2].
  rewrite E1, E2 by lia.
  set (m := default (1 # 10)%Q (RECENCY_BOOST_MULTIPLIER config)) in *.
  set (a1 := (inject_Z (timedelta_days now reference1) / (3044 # 100))%Q).
  set (a2 := (inject_Z (timedelta_days now reference2) / (3044 # 100))%Q).
  assert (0 <= a1)%Q as Ha1 by by apply age_months_nonneg.
  assert (a1 <= a2)%Q as Ha12.
  { subst a1 a2. unfold Qdiv. apply Qmult_le_compat_r; [|discriminate].
    by rewrite <- Zle_Qle. }
  assert (0 <= m * a1)%Q as Hp1 by by apply Qmult_le_0_compat.
  assert (m * a1 <= m * a2)%Q as Hp12.
  { rewrite !(Qmult_comm m). by apply Qmult_le_compat_r. }
  rewrite !pydiv_nonzero by lra.
  eexists. eexists. split; [reflexivity|]. split; [reflexivity|].
  apply Qle_shift_div_r; [lra|].
  assert (1 / (1 + m * a1) * (1 + m * a1) == 1)%Q as Hinv by (field; lra).
  assert (0 <= 1 / (1 + m * a1))%Q as Hnn.
  { apply Qle_shift_div_l; lra. }
  assert (1 / (1 + m * a1) * (1 + m * a1) <= 1 / (1 + m * a1) * (1 + m * a2))%Q
    as Hle.
  { rewrite !(Qmult_comm (1 / (1 + m * a1))). apply Qmult_le_compat_r; lra. }
  lra.
Qed.

Lemma X8_recency_boost_decreases_with_age_witness :
  exists v1 v2,
    compute_recency_boost example_config (midday 2024 6 1)
      (with_dates (Some "2024-05-01") None) = Ok v1
    /\ compute_recency_boost example_config (midday 2024 6 1)
         (with_dates (Some "2024-01-01") None) = Ok v2
    /\ (v2 <= v1)%Q.
Proof.
  apply (X8_recency_boost_decreases_with_age example_config (midday 2024 6 1) _ _
           {| year := 2024; month := 5; day := 1;
              hour := 0; minute := 0; second := 0; microsecond := 0 |}
           {| year := 2024; month := 1; day := 1;
              hour := 0; minute := 0; second := 0; microsecond := 0 |});
    try reflexivity; vm_compute; discriminate.
Defined.

(** X9. A record dated on the day of the call has a boost equal to 1, whatever
    the multiplier. *)
Theorem X9_recency_boost_of_today (config : Config) (now : datetime)
    (record : Record_) (reference : datetime) :
  reference_date record = Some reference ->
  timedelta_days now reference = 0 ->
  exists v, compute_recency_boost config now record = Ok v /\ (v == 1)%Q.
Proof.
  intros Href Hd.
  destruct (recency_cutoff_in_days config now record reference Href) as [_ E].
  rewrite E, Hd by lia.
  set (m := default (1 # 10)%Q (RECENCY_BOOST_MULTIPLIER config)).
  assert (1 + m * (inject_Z 0 / (3044 # 100)) == 1)%Q as E1.
  { unfold Qdiv. change (inject_Z 0) with 0%Q. rewrite Qmult_0_l, Qmult_0_r. lra. }
  rewrite pydiv_nonzero by (rewrite E1; discriminate).
  eexists. split; [reflexivity|]. rewrite E1. reflexivity.
Qed.

Lemma X9_recency_boost_of_today_witness :
  exists v,
    compute_recency_boost example_config (midday 2024 6 1)
      (with_dates (Some "2024-06-01") None) = Ok v
    /\ (v == 1)%Q.
Proof.
  apply (X9_recency_boost_of_today example_config (midday 2024 6 1) _
           {| year := 2024; month := 6; day := 1;
              hour := 0; minute := 0; second := 0; microsecond := 0 |});
    reflexivity.
Defined.

(** ** Keys and values of dicts built by a loop *)

Lemma append_inj_r (s1 s2 t : string) : s1 +:+ t = s2 +:+ t -> s1 = s2.
Proof.
  revert s2. induction s1 as [|c s1 IH]; intros s2 H.
  - destruct s2 as [|c2 s2]; [done|].
    apply (f_equal String.length) in H.
    rewrite append_nil, length_append in H. simpl in H. lia.
  - destruct s2 as [|c2 s2].
    + apply (f_equal String.length) in H.
      rewrite append_nil, length_append in H. simpl in H. lia.
    + rewrite !append_cons in H. injection H as -> H. f_equal. by apply IH.
Qed.

Lemma foldl_insert_Some_inv {A} (key : A -> string) (val : A -> Q)
    (l : list A) (acc : gmap string Q) (k : string) (v : Q) :
  foldl (fun acc x => <[key x := val x]> acc) acc l !! k = Some v ->
  acc !! k = Some v \/ exists x, x ∈ l /\ key x = k /\ v = val x.
Proof.
  intros H. destruct (decide (k ∈ map key l)) as [Hin|Hnin].
  - destruct (foldl_insert_in key val l acc k Hin) as (x & Hx & Hk & Hv).
    right. exists x. split; [done|]. split; [done|]. congruence.
  - left. by rewrite (foldl_insert_notin key val l acc k Hnin) in H.
Qed.

Lemma build_dict_Some_inv `{Countable K} {V} (items : list (K * result V))
    (acc m : gmap K V) (k : K) (v : V) :
  build_dict acc items = Ok m -> m !! k = Some v ->
  acc !! k = Some v \/ (k, Ok v) ∈ items.
Proof.
  intros Hb Hk. destruct (decide (k ∈ items.*1)) as [Hin|Hnin].
  - destruct (build_dict_in items acc m k Hb Hin) as (rv & v' & Hrv & -> & Hm).
    right. congruence.
  - left. by rewrite (build_dict_notin items acc m k Hb Hnin) in Hk.
Qed.

(** ** The weights of the ranks *)

Lemma pymax_ge_l (a b : Q) : (a <= pymax a b)%Q.
Proof.
  unfold pymax. destruct (Qlt_bool a b) eqn:E; [|apply Qle_refl].
  apply Qlt_bool_iff in E. by apply Qlt_le_weak.
Qed.

Lemma pymax_ge_r (a b : Q) : (b <= pymax a b)%Q.
Proof.
  unfold pymax. destruct (Qlt_bool a b) eqn:E; [apply Qle_refl|].
  by apply Qlt_bool_false in E.
Qed.

Lemma pymax_cases (a b : Q) : pymax a b = a \/ pymax a b = b.
Proof. unfold pymax. destruct (Qlt_bool a b); auto. Qed.

Lemma rank_weight_range (n i : nat) :
  (i < n)%nat -> (1 # 10 <= rank_weight n i <= 1)%Q.
Proof.
  intros Hi. unfold rank_weight. destruct (n =? 1)%nat eqn:E.
  - split; discriminate.
  - apply Nat.eqb_neq in E.
    pose proof (index_ratio_range i n Hi ltac:(lia)) as [H0 H1].
    assert ((9 # 10) * Qnat i / (inject_Z (Z.of_nat n) - 1)
            == (9 # 10) * (Qnat i / (inject_Z (Z.of_nat n) - 1)))%Q as ->.
    { unfold Qdiv. by rewrite Qmult_assoc. }
    split; lra.
Qed.

Lemma rank_to_weight_lookup (sorted_ranks : list Z) :
  NoDup sorted_ranks ->
  exists rank_to_weight,
    build_dict ∅ (rank_to_weight_items sorted_ranks) = Ok rank_to_weight
    /\ (forall i rank,
          sorted_ranks !! i = Some rank ->
          rank_to_weight !! rank = Some (rank_weight (length sorted_ranks) i))
    /\ (forall rank v,
          rank_to_weight !! rank = Some v ->
          exists i, sorted_ranks !! i = Some rank
                    /\ v = rank_weight (length sorted_ranks) i).
Proof.
  intros Hnd.
  assert (forall rank rv, (rank, rv) ∈ rank_to_weight_items sorted_ranks ->
            exists i, sorted_ranks !! i = Some rank
                      /\ rv = Ok (rank_weight (length sorted_ranks) i)) as Hitems.
  { intros rank rv Hin. unfold rank_to_weight_items in Hin.
    apply list_elem_of_In, in_map_iff in Hin as ([i rank'] & [= <- <-] & Hin).
    apply list_elem_of_In, enumerate_from_elem in Hin as [_ Hl].
    rewrite Nat.sub_0_r in Hl. exists i. split; [done|].
    unfold rank_weight. destruct (length sorted_ranks =? 1)%nat eqn:E; [done|].
    apply Nat.eqb_neq in E.
    by rewrite pydiv_nonzero by by apply len_minus_one_nonzero. }
  destruct (rank_to_weight_Ok sorted_ranks ∅) as [rtw Hrtw].
  exists rtw. split; [done|]. split.
  - intros i rank Hi.
    destruct (build_dict_in _ ∅ rtw rank Hrtw) as (rv & v & Hin & -> & ->).
    + apply list_elem_of_fmap. eexists (rank, _). split; [done|].
      unfold rank_to_weight_items.
      apply list_elem_of_In, in_map_iff. exists (i, rank). split; [done|].
      apply list_elem_of_In, enumerate_from_elem. split; [lia|].
      by rewrite Nat.sub_0_r.
    + destruct (Hitems rank _ Hin) as (j & Hj & [= ->]).
      by rewrite (NoDup_lookup _ _ _ _ Hnd Hi Hj).
  - intros rank v Hv.
    destruct (build_dict_Some_inv _ ∅ rtw rank v Hrtw Hv) as [Hempty|Hin].
    + by rewrite lookup_empty in Hempty.
    + destruct (Hitems rank _ Hin) as (i & Hi & [= ->]). eauto.
Qed.

Section MaxWeight.
Variable collection_rankings : gmap string (gmap string (option Z)).
Variable rank_to_weight : gmap Z Q.
Variable discipline : string.

Let step (acc : Q) (tag : string) : Q :=
  let collection_table := default ∅ (collection_rankings !! tag) in
  match mjoin (collection_table !! discipline) with
  | Some rank => pymax acc (default 0%Q (rank_to_weight !! rank))
  | None => acc
  end.

Lemma max_weight_foldl_ge_acc (tags : list string) (acc : Q) :
  (acc <= foldl step acc tags)%Q.
Proof.
  revert acc. induction tags as [|t tags IH]; intros acc; simpl; [apply Qle_refl|].
  eapply Qle_trans; [|apply IH].
  subst step. simpl. destruct (mjoin _); [apply pymax_ge_l | apply Qle_refl].
Qed.

Lemma max_weight_foldl_ge_tag (tags : list string) (acc : Q) (t : string) (v : Q) :
  t ∈ tags ->
  tag_weight collection_rankings rank_to_weight discipline t = Some v ->
  (v <= foldl step acc tags)%Q.
Proof.
  revert acc. induction tags as [|t' tags IH]; intros acc Hin Hv.
  - by apply elem_of_nil in Hin.
  - simpl. apply elem_of_cons in Hin as [->|Hin]; [|by apply IH].
    eapply Qle_trans; [|apply max_weight_foldl_ge_acc].
    unfold tag_weight in Hv. subst step. simpl.
    destruct (mjoin _); [|done]. injection Hv as <-. apply pymax_ge_r.
Qed.

Lemma max_weight_foldl_attained (tags : list string) (acc : Q) :
  foldl step acc tags = acc
  \/ exists t v, t ∈ tags
       /\ tag_weight collection_rankings rank_to_weight discipline t = Some v
       /\ foldl step acc tags = v.
Proof.
  revert acc. induction tags as [|t tags IH]; intros acc; simpl; [by left|].
  destruct (IH (step acc t)) as [E|(t' & v & Hin & Hv & E)].
  - rewrite E. subst step. simpl. unfold tag_weight.
    destruct (mjoin (default ∅ (collection_rankings !! t) !! discipline))
      as [rank|] eqn:Er; [|by left].
    destruct (pymax_cases acc (default 0%Q (rank_to_weight !! rank))) as [->| ->].
    + by left.
    + right. exists t, (default 0%Q (rank_to_weight !! rank)).
      split; [apply list_elem_of_here|]. unfold tag_weight. by rewrite Er.
  - right. exists t', v. split; [by apply list_elem_of_further | done].
Qed.
End MaxWeight.

Lemma max_weight_ge_tag cr rtw (tags : list string) (d t : string) (v : Q) :
  t ∈ tags -> tag_weight cr rtw d t = Some v -> (v <= max_weight cr rtw tags d)%Q.
Proof. apply max_weight_foldl_ge_tag. Qed.

Lemma max_weight_attained cr rtw (tags : list string) (d : string) :
  max_weight cr rtw tags d = 0%Q
  \/ exists t v, t ∈ tags /\ tag_weight cr rtw d t = Some v
                 /\ max_weight cr rtw tags d = v.
Proof. apply max_weight_foldl_attained. Qed.

Lemma max_weight_nonneg cr rtw (tags : list string) (d : string) :
  (0 <= max_weight cr rtw tags d)%Q.
Proof. apply max_weight_foldl_ge_acc. Qed.

Lemma max_weight_subset cr rtw (tags1 tags2 : list string) (d : string) :
  (forall t, t ∈ tags1 -> t ∈ tags2) ->
  (max_weight cr rtw tags1 d <= max_weight cr rtw tags2 d)%Q.
Proof.
  intros Hsub.
  destruct (max_weight_attained cr rtw tags1 d) as [->|(t & v & Hin & Hv & ->)].
  - apply max_weight_nonneg.
  - eapply max_weight_ge_tag; eauto.
Qed.

(** ** The collection weights *)

(** The two ways of [compute_collection_weights]: every weight 1.0, or,
    for each discipline, the greatest weight that a tag puts forward. *)
Lemma compute_collection_weights_cases (config : Config) (record : Record_) :
  let collections := default default_collections (COLLECTIONS config) in
  let cr := default ∅ (COLLECTION_RANKINGS config) in
  let tags := record_collections record in
  exists val : string -> Q,
    compute_collection_weights config record
    = Ok (foldl (fun acc c => <[c +:+ "_weight" := val c]> acc) ∅ collections)
    /\ ((val = (fun _ => 1%Q)
         /\ (cr = ∅ \/ sorted_set (all_ranks cr) = [] \/ "general" ∈ tags))
        \/ (cr <> ∅ /\ sorted_set (all_ranks cr) <> [] /\ ("general" ∉ tags)
            /\ (exists rtw,
                  build_dict ∅ (rank_to_weight_items (rev (sorted_set (all_ranks cr))))
                  = Ok rtw
                  /\ val = max_weight cr rtw tags))).
Proof.
  intros collections cr tags. unfold compute_collection_weights.
  fold collections cr tags.
  case_bool_decide as Hcr; [exists (fun _ => 1%Q); split; [done|]; left; auto|].
  destruct (sorted_set (all_ranks cr)) as [|x t] eqn:Hs;
    [exists (fun _ => 1%Q); split; [done|]; left; auto|].
  destruct (rank_to_weight_Ok (rev (x :: t)) ∅) as [rtw Hrtw].
  rewrite Hrtw. simpl.
  case_bool_decide as Hgen; [exists (fun _ => 1%Q); split; [done|]; left; auto|].
  exists (max_weight cr rtw tags). split; [done|]. right.
  repeat split; try done. by exists rtw.
Qed.

Lemma weight_key_lookup (val : string -> Q) (collections : list string)
    (d : string) (w : Q) :
  foldl (fun (acc : gmap string Q) c => <[c +:+ "_weight" := val c]> acc) ∅ collections
    !! (d +:+ "_weight") = Some w ->
  d ∈ collections /\ w = val d.
Proof.
  intros H.
  apply (foldl_insert_Some_inv (fun c => c +:+ "_weight") val) in H
    as [H|(x & Hx & Hk & ->)].
  - by rewrite lookup_empty in H.
  - apply append_inj_r in Hk. by subst x.
Qed.


Lemma rank_to_weight_values (sorted_ranks : list Z) (rtw : gmap Z Q) (rank : Z) :
  NoDup sorted_ranks ->
  build_dict ∅ (rank_to_weight_items sorted_ranks) = Ok rtw ->
  (default 0 (rtw !! rank) == 0 \/ 1 # 10 <= default 0 (rtw !! rank))%Q
  /\ (default 0 (rtw !! rank) <= 1)%Q.
Proof.
  intros Hnd Hrtw.
  destruct (rank_to_weight_lookup sorted_ranks Hnd) as (rtw' & Hrtw' & _ & Hinv).
  rewrite Hrtw in Hrtw'. injection Hrtw' as <-.
  destruct (rtw !! rank) as [v|] eqn:Hv; simpl.
  - destruct (Hinv rank v Hv) as (i & Hi & ->).
    apply lookup_lt_Some in Hi.
    pose proof (rank_weight_range _ i Hi) as [H0 H1]. split; [by right | done].
  - split; [by left | discriminate].
Qed.

Lemma sorted_ranks_NoDup (l : list Z) : NoDup (rev (sorted_set l)).
Proof.
  apply NoDup_ListNoDup, List.NoDup_rev, NoDup_ListNoDup, sorted_NoDup,
    sorted_set_sorted.
Qed.

(** The weight [max_weight] gives a discipline is 0.0, or lies between 0.1
    and 1.0, when the weights of the ranks are those of [rank_to_weight]. *)
Lemma max_weight_range (cr : gmap string (gmap string (option Z))) (rtw : gmap Z Q)
    (tags : list string) (d : string) :
  build_dict ∅ (rank_to_weight_items (rev (sorted_set (all_ranks cr)))) = Ok rtw ->
  (max_weight cr rtw tags d == 0 \/ 1 # 10 <= max_weight cr rtw tags d)%Q
  /\ (max_weight cr rtw tags d <= 1)%Q.
Proof.
  intros Hrtw.
  destruct (max_weight_attained cr rtw tags d) as [->|(t & v & _ & Hv & ->)].
  - split; [by left | discriminate].
  - unfold tag_weight in Hv. destruct (mjoin _) as [rank|]; [|done].
    injection Hv as <-.
    by apply (rank_to_weight_values _ rtw rank (sorted_ranks_NoDup (all_ranks cr))).
Qed.



Lemma all_ranks_nonempty (cr : gmap string (gmap string (option Z))) :
  all_ranks cr <> [] -> cr <> ∅ /\ sorted_set (all_ranks cr) <> [].
Proof.
  intros Hne. split.
  - intros ->. apply Hne. unfold all_ranks. by rewrite map_to_list_empty.
  - intros Hs. destruct (all_ranks cr) as [|x t] eqn:E; [done|].
    assert (x ∈ sorted_set (x :: t)) as Hin
      by (apply sorted_set_elem, list_elem_of_here).
    rewrite Hs in Hin. by apply elem_of_nil in Hin.
Qed.

(** X12. When the rankings hold a rank, a record without the tag ["general"] and
    whose tags are all unknown to [COLLECTION_RANKINGS] has weight 0.0 for
    every discipline. *)
Theorem X12_collection_weights_of_unknown_tags (config : Config) (record : Record_)
    (cr : gmap string (gmap string (option Z))) (d : string) :
  COLLECTION_RANKINGS config = Some cr ->
  all_ranks cr <> [] ->
  "general" ∉ record_collections record ->
  (forall t, t ∈ record_collections record -> cr !! t = None) ->
  d ∈ default default_collections (COLLECTIONS config) ->
  exists collection_weights,
    compute_collection_weights config record = Ok collection_weights
    /\ collection_weights !! (d +:+ "_weight") = Some 0%Q.
Proof.
  intros Hcfg Hranks Hgen Hunknown Hd.
  destruct (all_ranks_nonempty cr Hranks) as [Hne Hs].
  destruct (compute_collection_weights_cases config record)
    as (val & Hval & Hcases).
  rewrite Hcfg in Hcases. simpl in Hcases.
  destruct Hcases as [[_ [?|[?|?]]]|(_ & _ & _ & rtw & _ & ->)]; try done.
  eexists. split; [exact Hval|].
  destruct (foldl_insert_in (fun c => c +:+ "_weight")
              (max_weight cr rtw (record_collections record))
              (default default_collections (COLLECTIONS config)) ∅
              (d +:+ "_weight")) as (x & _ & _ & ->).
  { by apply list_elem_of_In, (in_map (fun c => c +:+ "_weight")), list_elem_of_In. }
  f_equal.
  destruct (max_weight_attained cr rtw (record_collections record) x)
    as [->|(t & v & Hin & Hv & _)]; [done|].
  unfold tag_weight in Hv. rewrite (Hunknown t Hin) in Hv. simpl in Hv.
  by rewrite lookup_empty in Hv.
Qed.

Lemma X12_collection_weights_of_unknown_tags_witness :
  exists collection_weights,
    compute_collection_weights example_config
      (with_tags (Some (TagStr "Physics")) None) = Ok collection_weights
    /\ collection_weights !! "astronomy_weight" = Some 0%Q.
Proof.
  apply (X12_collection_weights_of_unknown_tags example_config
           (with_tags (Some (TagStr "Physics")) None)
           (<["astronomy" := <["astronomy" := Some 2]> (<["physics" := Some 1]> ∅)]> ∅)
           "astronomy").
  - reflexivity.
  - vm_compute. discriminate.
  - vm_compute. intros H. apply list_elem_of_In in H. destruct H as [H|[]].
    discriminate H.
  - intros t Ht. vm_compute in Ht. apply list_elem_of_In in Ht.
    destruct Ht as [<-|[]]. reflexivity.
  - apply list_elem_of_In. by left.
Defined.

(** X13. Tags only add: when every tag of one record is a tag of another, no
    discipline weight of the first is above that of the second. *)
Theorem X13_collection_weights_grow_with_tags (config : Config)
    (record1 record2 : Record_) (cw1 cw2 : BoostFactors) (d : string) (w1 w2 : Q) :
  (forall t, t ∈ record_collections record1 -> t ∈ record_collections record2) ->
  compute_collection_weights config record1 = Ok cw1 ->
  compute_collection_weights config record2 = Ok cw2 ->
  cw1 !! (d +:+ "_weight") = Some w1 ->
  cw2 !! (d +:+ "_weight") = Some w2 ->
  (w1 <= w2)%Q.
Proof.
  intros Hsub H1 H2 Hw1 Hw2.
  destruct (compute_collection_weights_cases config record1) as (val1 & E1 & C1).
  destruct (compute_collection_weights_cases config record2) as (val2 & E2 & C2).
  rewrite H1 in E1. injection E1 as ->. rewrite H2 in E2. injection E2 as ->.
  apply weight_key_lookup in Hw1 as [_ ->]. apply weight_key_lookup in Hw2 as [_ ->].
  destruct C2 as [[-> _]|(Hne2 & Hs2 & Hgen2 & rtw2 & Hrtw2 & ->)].
  { destruct C1 as [[-> _]|(_ & _ & _ & rtw1 & Hrtw1 & ->)]; [done|].
    by apply max_weight_range. }
  destruct C1 as [[-> [?|[?|Hgen1]]]|(_ & _ & _ & rtw1 & Hrtw1 & ->)]; try done.
  - exfalso. by apply Hgen2, Hsub.
  - rewrite Hrtw1 in Hrtw2. injection Hrtw2 as <-. by apply max_weight_subset.
Qed.

Lemma X13_collection_weights_grow_with_tags_witness :
  let record1 := with_tags (Some (TagStr "Physics")) None in
  let record2 := with_tags (Some (TagList ["Physics"; "Astronomy"])) None in
  exists cw1 cw2 w1 w2,
    compute_collection_weights example_config record1 = Ok cw1
    /\ compute_collection_weights example_config record2 = Ok cw2
    /\ cw1 !! ("physics" +:+ "_weight") = Some w1
    /\ cw2 !! ("physics" +:+ "_weight") = Some w2
    /\ (w1 <= w2)%Q.
Proof.
  intros record1 record2.
  destruct (compute_collection_weights_Ok example_config record1) as [cw1 E1].
  destruct (compute_collection_weights_Ok example_config record2) as [cw2 E2].
  destruct (collection_weights_has_key example_config record1 cw1 "physics" E1)
    as [w1 H1]; [apply list_elem_of_In; right; by left|].
  destruct (collection_weights_has_key example_config record2 cw2 "physics" E2)
    as [w2 H2]; [apply list_elem_of_In; right; by left|].
  exists cw1, cw2, w1, w2.
  split; [exact E1|]. split; [exact E2|]. split; [exact H1|]. split; [exact H2|].
  refine (X13_collection_weights_grow_with_tags example_config record1 record2
            cw1 cw2 "physics" w1 w2 _ E1 E2 H1 H2).
  intros t Ht. vm_compute in Ht. apply list_elem_of_In in Ht.
  destruct Ht as [<-|[]]. vm_compute. apply list_elem_of_In. by left.
Defined.

(** X14. The weight of a rank: for a record with one tag, other than
    ["general"], a discipline for which the tag has the i-th highest of the
    [n] ranks of the rankings has weight [1 - 0.9 i/(n-1)], and 1.0 when
    [n = 1]. *)
Theorem X14_collection_weight_of_single_tag (config : Config) (record : Record_)
    (cr : gmap string (gmap string (option Z))) (tag d : string)
    (table : gmap string (option Z)) (rank : Z) (i : nat) :
  COLLECTION_RANKINGS config = Some cr ->
  record_collections record = [tag] ->
  tag <> "general" ->
  cr !! tag = Some table ->
  table !! d = Some (Some rank) ->
  d ∈ default default_collections (COLLECTIONS config) ->
  rev (sorted_set (all_ranks cr)) !! i = Some rank ->
  exists collection_weights,
    compute_collection_weights config record = Ok collection_weights
    /\ collection_weights !! (d +:+ "_weight")
       = Some (rank_weight (length (sorted_set (all_ranks cr))) i).
Proof.
  intros Hcfg Htags Htag Htable Hrank Hd Hi.
  destruct (compute_collection_weights_cases config record)
    as (val & Hval & Hcases).
  rewrite Hcfg, Htags in Hcases. simpl in Hcases.
  assert (sorted_set (all_ranks cr) <> []) as Hs.
  { intros E. rewrite E in Hi. done. }
  assert (cr <> ∅) as Hne.
  { intros ->. by rewrite lookup_empty in Htable. }
  destruct Hcases as [[_ [?|[?|Hgen]]]|(_ & _ & _ & rtw & Hrtw & ->)]; try done.
  { apply list_elem_of_In in Hgen. destruct Hgen as [Hgen|[]]. by subst tag. }
  eexists. split; [exact Hval|].
  destruct (foldl_insert_in (fun c => c +:+ "_weight") (max_weight cr rtw [tag])
              (default default_collections (COLLECTIONS config)) ∅
              (d +:+ "_weight")) as (x & _ & Hx & ->).
  { by apply list_elem_of_In, (in_map (fun c => c +:+ "_weight")), list_elem_of_In. }
  apply append_inj_r in Hx. subst x. f_equal.
  destruct (rank_to_weight_lookup _ (sorted_ranks_NoDup (all_ranks cr)))
    as (rtw' & Hrtw' & Hlook & _).
  rewrite Hrtw in Hrtw'. injection Hrtw' as <-.
  unfold max_weight. simpl. rewrite Htable. simpl. rewrite Hrank. simpl.
  rewrite (Hlook i rank Hi). simpl. rewrite length_rev.
  unfold pymax.
  replace (Qlt_bool 0 (rank_weight (length (sorted_set (all_ranks cr))) i)) with true;
    [done|].
  symmetry. apply Qlt_bool_iff.
  apply lookup_lt_Some in Hi. rewrite length_rev in Hi.
  pose proof (rank_weight_range _ i Hi) as [H0 _]. lra.
Qed.

Lemma X14_collection_weight_of_single_tag_witness :
  exists collection_weights,
    compute_collection_weights example_config example_record = Ok collection_weights
    /\ collection_weights !! "physics_weight" = Some (rank_weight 2 1).
Proof.
  refine (X14_collection_weight_of_single_tag example_config example_record
            (<["astronomy" := <["astronomy" := Some 2]> (<["physics" := Some 1]> ∅)]> ∅)
            "astronomy" "physics"
            (<["astronomy" := Some 2]> (<["physics" := Some 1]> ∅)) 1 1%nat
            _ _ _ _ _ _ _);
    try reflexivity.
  - discriminate.
  - apply list_elem_of_In. right. by left.
Defined.

(** ** The fields of the result *)

Lemma not_weight_key (k : string) :
  endswith k "_weight" = false -> forall c, k <> c +:+ "_weight".
Proof. intros H c ->. by rewrite (endswith_append c "_weight" "_weight") in H. Qed.

Lemma not_final_boost_key (k : string) :
  endswith k "_final_boost" = false -> forall c, k <> c +:+ "_final_boost".
Proof.
  intros H c ->. by rewrite (endswith_append c "_final_boost" "_final_boost") in H.
Qed.

Lemma weight_key_not_final_boost_key (c c' : string) :
  c +:+ "_weight" <> c' +:+ "_final_boost".
Proof.
  intros H. apply (f_equal (fun s => endswith s "_weight")) in H.
  rewrite (endswith_append c "_weight" "_weight") in H by done.
  change (c' +:+ "_final_boost") with (c' +:+ ("_fina" +:+ "l_boost")) in H.
  rewrite <- append_assoc in H.
  by rewrite (endswith_append (c' +:+ "_fina") "l_boost" "_weight") in H.
Qed.

Lemma collection_weights_only_weight_keys (config : Config) (record : Record_)
    (cw : BoostFactors) (k : string) :
  compute_collection_weights config record = Ok cw ->
  (forall c, k <> c +:+ "_weight") -> cw !! k = None.
Proof.
  intros Hcw Hk.
  destruct (compute_collection_weights_shape config record) as [val Hval].
  rewrite Hcw in Hval. injection Hval as ->.
  destruct (_ !! k) as [v|] eqn:E; [|done].
  apply (foldl_insert_Some_inv (fun c => c +:+ "_weight") val) in E
    as [E|(c & _ & Hc & _)].
  - by rewrite lookup_empty in E.
  - by destruct (Hk c).
Qed.

Lemma weighted_sum_ext (m1 m2 nw : gmap string Q) :
  m1 !! "refereed_boost" = m2 !! "refereed_boost" ->
  m1 !! "doctype_boost" = m2 !! "doctype_boost" ->
  m1 !! "recency_boost" = m2 !! "recency_boost" ->
  weighted_sum m1 nw = weighted_sum m2 nw.
Proof. intros Hr Hd Hc. unfold weighted_sum, getitem. by rewrite Hr, Hd, Hc. Qed.

Section Fields.
Variables (config : Config) (now : datetime) (record : Record_).

Let collections := default default_collections (COLLECTIONS config).
Let weights := default ∅ (BOOST_FACTOR_WEIGHTS config).

(** What a result of the scoring call is made of. *)
Lemma compute_boost_factors_inv (boost_factors : BoostFactors) :
  compute_boost_factors config now record = Ok boost_factors ->
  exists d c nw b cw fb,
    let basic : BoostFactors :=
      <["recency_boost" := c]>
        (<["doctype_boost" := d]>
           (<["refereed_boost" := compute_refereed_boost record]> ∅)) in
    compute_doctype_boost config record = Ok d
    /\ compute_recency_boost config now record = Ok c
    /\ normalize_weights weights (sum_values weights) = Ok nw
    /\ weighted_sum basic nw = Ok b
    /\ compute_collection_weights config record = Ok cw
    /\ compute_final_boost config (update (<["boost_factor" := b]> basic) cw) record
       = Ok fb
    /\ boost_factors = update (update (<["boost_factor" := b]> basic) cw) fb.
Proof.
  unfold compute_boost_factors. intros H.
  apply bind_Ok_inv in H as (d & Hd & H).
  apply bind_Ok_inv in H as (c & Hc & H).
  apply bind_Ok_inv in H as (nw & Hnw & H).
  apply bind_Ok_inv in H as (b & Hb & H).
  apply bind_Ok_inv in H as (cw & Hcw & H).
  apply bind_Ok_inv in H as (fb & Hfb & H).
  injection H as <-. by exists d, c, nw, b, cw, fb.
Qed.

Lemma updated_lookup_basic (basic cw : BoostFactors) (b : Q) (k : string) :
  compute_collection_weights config record = Ok cw ->
  endswith k "_weight" = false -> k <> "boost_factor" ->
  update (<["boost_factor" := b]> basic) cw !! k = basic !! k.
Proof.
  intros Hcw Hk Hne. unfold update.
  rewrite lookup_union_r
    by (eapply collection_weights_only_weight_keys; eauto using not_weight_key).
  by rewrite lookup_insert_ne.
Qed.

Lemma final_boosts_lookup (boost_factors fb : BoostFactors) (k : string) (v : Q) :
  compute_final_boost config boost_factors record = Ok fb ->
  fb !! k = Some v ->
  exists c, c ∈ collections /\ k = c +:+ "_final_boost".
Proof.
  unfold compute_final_boost. intros H Hk.
  apply bind_Ok_inv in H as (boost_factor & _ & H).
  apply bind_Ok_inv in H as (cw & _ & H).
  destruct (build_dict_Some_inv _ _ _ _ _ H Hk) as [He|Hin].
  - by rewrite lookup_empty in He.
  - apply list_elem_of_In, in_map_iff in Hin as (c & [= <- _] & Hc).
    exists c. split; [by apply list_elem_of_In | done].
Qed.

Lemma final_boosts_only_final_keys (boost_factors fb : BoostFactors) (k : string) :
  compute_final_boost config boost_factors record = Ok fb ->
  (forall c, k <> c +:+ "_final_boost") -> fb !! k = None.
Proof.
  intros H Hk. destruct (fb !! k) as [v|] eqn:E; [|done].
  destruct (final_boosts_lookup _ _ _ _ H E) as (c & _ & ->). by destruct (Hk c).
Qed.

(** A result of the scoring call holds the three boosts as the stages
    computed them, the [boost_factor], and for every discipline of
    [COLLECTIONS] its weight, as [compute_collection_weights] gives it, and
    its final boost. *)
Lemma boost_factors_fields (boost_factors : BoostFactors) :
  compute_boost_factors config now record = Ok boost_factors ->
  boost_factors !! "refereed_boost" = Some (compute_refereed_boost record)
  /\ (Ok <$> boost_factors !! "doctype_boost")
     = Some (compute_doctype_boost config record)
  /\ (Ok <$> boost_factors !! "recency_boost")
     = Some (compute_recency_boost config now record)
  /\ is_Some (boost_factors !! "boost_factor")
  /\ forall discipline,
       discipline ∈ collections ->
       is_Some (boost_factors !! (discipline +:+ "_final_boost"))
       /\ exists cw w,
            compute_collection_weights config record = Ok cw
            /\ cw !! (discipline +:+ "_weight") = Some w
            /\ boost_factors !! (discipline +:+ "_weight") = Some w.
Proof.
  intros H.
  apply compute_boost_factors_inv in H
    as (d & c & nw & b & cw & fb & Hd & Hc & Hnw & Hb & Hcw & Hfb & ->).
  assert (forall k, endswith k "_final_boost" = false ->
            endswith k "_weight" = false -> k <> "boost_factor" ->
            update (update (<["boost_factor" := b]>
                      (<["recency_boost" := c]>
                         (<["doctype_boost" := d]>
                            (<["refereed_boost" := compute_refereed_boost record]> (∅ : BoostFactors)))))
                      cw) fb !! k
            = (<["recency_boost" := c]>
                 (<["doctype_boost" := d]>
                    (<["refereed_boost" := compute_refereed_boost record]> (∅ : BoostFactors)))) !! k)
    as Hbasic.
  { intros k Hf Hw Hne. unfold update at 1.
    rewrite lookup_union_r
      by (eapply final_boosts_only_final_keys; eauto using not_final_boost_key).
    by apply updated_lookup_basic. }
  repeat split.
  - rewrite Hbasic by done. apply basic_boosts_refereed.
  - rewrite Hbasic by done. by rewrite basic_boosts_doctype, Hd.
  - rewrite Hbasic by done. by rewrite basic_boosts_recency, Hc.
  - unfold update.
    rewrite lookup_union_r by by eapply final_boosts_no_boost_factor.
    rewrite lookup_union_r by by eapply collection_weights_no_boost_factor.
    rewrite lookup_insert_eq. by eexists.
  - unfold update at 1. apply lookup_union_is_Some. left.
    unfold compute_final_boost in Hfb.
    apply bind_Ok_inv in Hfb as (bf' & _ & Hfb).
    apply bind_Ok_inv in Hfb as (cw' & _ & Hfb).
    destruct (build_dict_in _ _ _ (discipline +:+ "_final_boost") Hfb)
      as (rv & v & _ & _ & ->); [|by eexists].
    apply list_elem_of_fmap. eexists (_, _). split; [done|].
    apply list_elem_of_In, in_map_iff. exists discipline.
    split; [done | by apply list_elem_of_In].
  - destruct (collection_weights_has_key config record cw discipline Hcw)
      as [w Hw]; [done|].
    exists cw, w. split; [done|]. split; [done|].
    unfold update at 1.
    rewrite lookup_union_r.
    + unfold update. by apply lookup_union_Some_l.
    + eapply final_boosts_only_final_keys; [exact Hfb|].
      intros c' E. by apply (weight_key_not_final_boost_key discipline c').
Qed.

(** When the configured weights have a positive sum, every final boost of a
    result is the product of two other fields of it: the weight of the
    discipline and the [boost_factor]. *)
Lemma final_boost_is_weight_times_boost_factor (boost_factors : BoostFactors)
    (discipline : string) :
  (0 < sum_values weights)%Q ->
  compute_boost_factors config now record = Ok boost_factors ->
  discipline ∈ collections ->
  exists w b,
    boost_factors !! (discipline +:+ "_weight") = Some w
    /\ boost_factors !! "boost_factor" = Some b
    /\ boost_factors !! (discipline +:+ "_final_boost") = Some (w * b)%Q.
Proof.
  intros Hpos H Hdisc.
  pose proof (boost_factors_fields boost_factors H) as (_ & _ & _ & _ & Hall).
  destruct (Hall discipline Hdisc) as (_ & cw0 & w & Hcw0 & Hw0 & Hw).
  apply compute_boost_factors_inv in H
    as (d & c & nw & b & cw & fb & Hd & Hc & Hnw & Hb & Hcw & Hfb & ->).
  rewrite Hcw in Hcw0. injection Hcw0 as <-.
  exists w, b. split; [done|]. split.
  { unfold update.
    rewrite lookup_union_r by by eapply final_boosts_no_boost_factor.
    rewrite lookup_union_r by by eapply collection_weights_no_boost_factor.
    apply lookup_insert_eq. }
  unfold update at 1. apply lookup_union_Some_l.
  unfold compute_final_boost in Hfb. fold weights in Hfb.
  assert (weights <> ∅) as Hne.
  { intros E. rewrite E, sum_values_empty in Hpos. by apply Qlt_irrefl in Hpos. }
  rewrite bool_decide_eq_false_2 in Hfb by done.
  apply Qlt_bool_iff in Hpos. rewrite Hpos, Hnw in Hfb. simpl in Hfb.
  rewrite (weighted_sum_ext _
             (<["recency_boost" := c]>
                (<["doctype_boost" := d]>
                   (<["refereed_boost" := compute_refereed_boost record]> (∅ : BoostFactors))))) in Hfb
    by (by apply updated_lookup_basic).
  rewrite Hb, Hcw in Hfb. simpl in Hfb.
  destruct (build_dict_in _ _ _ (discipline +:+ "_final_boost") Hfb)
    as (rv & v & Hin & -> & ->).
  { apply list_elem_of_fmap. eexists (_, _). split; [done|].
    apply list_elem_of_In, in_map_iff. exists discipline.
    split; [done | by apply list_elem_of_In]. }
  apply list_elem_of_In, in_map_iff in Hin as (x & [= Hx Hv] & _).
  apply append_inj_r in Hx. subst x.
  unfold getitem in Hv. rewrite Hw0 in Hv. simpl in Hv. by injection Hv as <-.
Qed.
End Fields.

Lemma example_scoring_returns :
  is_Ok (compute_boost_factors example_config (midday 2024 6 1) example_record).
Proof.
  apply (compute_boost_factors_returns example_config (midday 2024 6 1) example_record
           default_weights 1%Q (30440 # 45640)%Q).
  - reflexivity.
  - apply default_weights_nonneg.
  - vm_compute. reflexivity.
  - vm_compute. reflexivity.
  - reflexivity.
  - by eexists.
  - by eexists.
  - by eexists.
Qed.

(** X15. A result of the scoring call holds the three boosts as the stages
    computed them, the [boost_factor], and for every discipline of
    [COLLECTIONS] its weight, as [compute_collection_weights] gives it, and
    its final boost. *)
Theorem X15_boost_factors_fields (config : Config) (now : datetime)
    (record : Record_) (boost_factors : BoostFactors) :
  compute_boost_factors config now record = Ok boost_factors ->
  boost_factors !! "refereed_boost" = Some (compute_refereed_boost record)
  /\ (Ok <$> boost_factors !! "doctype_boost")
     = Some (compute_doctype_boost config record)
  /\ (Ok <$> boost_factors !! "recency_boost")
     = Some (compute_recency_boost config now record)
  /\ is_Some (boost_factors !! "boost_factor")
  /\ forall discipline,
       discipline ∈ default default_collections (COLLECTIONS config) ->
       is_Some (boost_factors !! (discipline +:+ "_final_boost"))
       /\ exists cw w,
            compute_collection_weights config record = Ok cw
            /\ cw !! (discipline +:+ "_weight") = Some w
            /\ boost_factors !! (discipline +:+ "_weight") = Some w.
Proof. exact (boost_factors_fields config now record boost_factors). Qed.

Lemma X15_boost_factors_fields_witness :
  exists boost_factors,
    compute_boost_factors example_config (midday 2024 6 1) example_record
    = Ok boost_factors
    /\ boost_factors !! "refereed_boost" = Some (compute_refereed_boost example_record).
Proof.
  destruct example_scoring_returns as [boost_factors E].
  exists boost_factors. split; [exact E|].
  exact (proj1 (X15_boost_factors_fields example_config (midday 2024 6 1)
                  example_record boost_factors E)).
Defined.

(** X16. When the configured weights have a positive sum, every final
    boost of a result is the product of two other fields of it: the weight of
    the discipline and the [boost_factor]. *)
Theorem X16_final_boost_is_weight_times_boost_factor (config : Config)
    (now : datetime) (record : Record_) (boost_factors : BoostFactors)
    (discipline : string) :
  (0 < sum_values (default ∅ (BOOST_FACTOR_WEIGHTS config)))%Q ->
  compute_boost_factors config now record = Ok boost_factors ->
  discipline ∈ default default_collections (COLLECTIONS config) ->
  exists w b,
    boost_factors !! (discipline +:+ "_weight") = Some w
    /\ boost_factors !! "boost_factor" = Some b
    /\ boost_factors !! (discipline +:+ "_final_boost") = Some (w * b)%Q.
Proof.
  exact (final_boost_is_weight_times_boost_factor config now record boost_factors
           discipline).
Qed.

Lemma X16_final_boost_is_weight_times_boost_factor_witness :
  exists boost_factors w b,
    compute_boost_factors example_config (midday 2024 6 1) example_record
    = Ok boost_factors
    /\ boost_factors !! ("physics" +:+ "_weight") = Some w
    /\ boost_factors !! "boost_factor" = Some b
    /\ boost_factors !! ("physics" +:+ "_final_boost") = Some (w * b)%Q.
Proof.
  destruct example_scoring_returns as [boost_factors E].
  destruct (X16_final_boost_is_weight_times_boost_factor example_config (midday 2024 6 1)
              example_record boost_factors "physics") as (w & b & H);
    [reflexivity | exact E | apply list_elem_of_In; right; by left |].
  exists boost_factors, w, b. split; [exact E | exact H].
Defined.

(** ** When the scoring call returns *)

Section Returns.
Variables (config : Config) (now : datetime) (record : Record_).

Let weights := default ∅ (BOOST_FACTOR_WEIGHTS config).

Lemma final_boosts_Ok (cw : BoostFactors) (boost_factor : Q) :
  compute_collection_weights config record = Ok cw ->
  is_Ok (build_dict ∅
           (map (fun collection =>
                   (collection +:+ "_final_boost",
                    w ← getitem cw (collection +:+ "_weight");
                    Ok (w * boost_factor)%Q))
                (default default_collections (COLLECTIONS config)))).
Proof.
  intros Hcw. apply build_dict_Ok, Forall_forall. intros item Hin.
  apply list_elem_of_In, in_map_iff in Hin as (x & <- & Hx). simpl.
  destruct (collection_weights_has_key config record cw x Hcw) as [w Hw].
  { by apply list_elem_of_In. }
  unfold getitem. rewrite Hw. by eexists.
Qed.

End Returns.

(** ** The final boosts without configured weights *)

Lemma default_weights_sum : (sum_values default_weights == 1)%Q.
Proof. vm_compute. reflexivity. Qed.

(** X18. [compute_final_boost] takes the default weights when none are
    configured: every final boost it returns is the weight of the discipline
    times [0.6 * refereed_boost + 0.4 * doctype_boost]. *)
Theorem X18_final_boost_with_default_weights (config : Config) (record : Record_)
    (boost_factors : BoostFactors) (r d c : Q) :
  default ∅ (BOOST_FACTOR_WEIGHTS config) = ∅ ->
  boost_factors !! "refereed_boost" = Some r ->
  boost_factors !! "doctype_boost" = Some d ->
  boost_factors !! "recency_boost" = Some c ->
  exists final_boosts cw,
    compute_final_boost config boost_factors record = Ok final_boosts
    /\ compute_collection_weights config record = Ok cw
    /\ forall discipline,
         discipline ∈ default default_collections (COLLECTIONS config) ->
         exists w f,
           cw !! (discipline +:+ "_weight") = Some w
           /\ final_boosts !! (discipline +:+ "_final_boost") = Some f
           /\ (f == w * ((6 # 10) * r + (4 # 10) * d))%Q.
Proof.
  intros Hw Hr Hd Hc. unfold compute_final_boost. rewrite Hw.
  rewrite bool_decide_eq_true_2 by done.
  assert (Qlt_bool 0 (sum_values default_weights) = true) as -> by reflexivity.
  assert (~ (sum_values default_weights == 0)%Q) as Hnz
    by (rewrite default_weights_sum; discriminate).
  destruct (normalize_weights_lookup default_weights _ Hnz) as (nw & Hnw & Hlook).
  rewrite Hnw. simpl.
  unfold weighted_sum, getitem. rewrite Hr, Hd, Hc, !Hlook.
  change (default_weights !! "refereed_boost") with (Some (6 # 10)%Q).
  change (default_weights !! "doctype_boost") with (Some (4 # 10)%Q).
  change (default_weights !! "recency_boost") with (Some 0%Q).
  simpl.
  destruct (compute_collection_weights_Ok config record) as [cw Hcw].
  rewrite Hcw. simpl.
  set (b := (r * ((6 # 10) / sum_values default_weights)
             + d * ((4 # 10) / sum_values default_weights)
             + c * (0 / sum_values default_weights))%Q).
  destruct (final_boosts_Ok config record cw b Hcw) as [fb Hfb].
  exists fb, cw. split; [done|]. split; [done|].
  intros discipline Hdisc.
  destruct (collection_weights_has_key config record cw discipline Hcw Hdisc)
    as [w Hwk].
  destruct (build_dict_in _ _ _ (discipline +:+ "_final_boost") Hfb)
    as (rv & v & Hin & -> & Hv).
  { apply list_elem_of_fmap. eexists (_, _). split; [done|].
    apply list_elem_of_In, in_map_iff. exists discipline.
    split; [done | by apply list_elem_of_In]. }
  apply list_elem_of_In, in_map_iff in Hin as (x & [= Hx Hrv] & _).
  apply append_inj_r in Hx. subst x.
  unfold getitem in Hrv. rewrite Hwk in Hrv. simpl in Hrv. injection Hrv as <-.
  exists w, (w * b)%Q. split; [done|]. split; [done|].
  subst b. rewrite default_weights_sum. field.
Qed.

Lemma X18_final_boost_with_default_weights_witness :
  exists final_boosts cw,
    compute_final_boost (with_weights None)
      (<["recency_boost" := 1%Q]>
         (<["doctype_boost" := 1%Q]> (<["refereed_boost" := 0%Q]> ∅)))
      example_record = Ok final_boosts
    /\ compute_collection_weights (with_weights None) example_record = Ok cw
    /\ forall discipline,
         discipline ∈ default_collections ->
         exists w f,
           cw !! (discipline +:+ "_weight") = Some w
           /\ final_boosts !! (discipline +:+ "_final_boost") = Some f
           /\ (f == w * ((6 # 10) * 0 + (4 # 10) * 1))%Q.
Proof.
  apply (X18_final_boost_with_default_weights (with_weights None) example_record
           (<["recency_boost" := 1%Q]>
              (<["doctype_boost" := 1%Q]> (<["refereed_boost" := 0%Q]> ∅)))
           0%Q 1%Q 1%Q); reflexivity.
Defined.


(** ** The message to the Master Pipeline *)

Lemma message_boosts_lookup (original_record : Record_) (boost_factors : BoostFactors)
    (timestamp : string) (k : string) :
  msg_boosts (master_message original_record boost_factors timestamp) !! k
  = if bool_decide (k ∈ message_keys) then Some (get_or_zero boost_factors k) else None.
Proof.
  unfold master_message, message_keys. simpl.
  case_bool_decide as Hk.
  - repeat (apply elem_of_cons in Hk as [->|Hk];
            [rewrite ?lookup_insert_ne by discriminate; apply lookup_insert_eq|]).
    by apply elem_of_nil in Hk.
  - repeat (rewrite lookup_insert_ne;
            [|intros <-; apply Hk; repeat constructor]).
    apply lookup_empty.
Qed.

(** X19. The boosts of a message are the ten fixed fields, each with the value of
    the result, or 0.0 when the result lacks it; no collection weight is ever
    among them. *)
Theorem X19_message_boosts (original_record : Record_) (boost_factors : BoostFactors)
    (timestamp : string) :
  let boosts := msg_boosts (master_message original_record boost_factors timestamp) in
  (forall k, k ∈ message_keys -> boosts !! k = Some (default 0%Q (boost_factors !! k)))
  /\ (forall k, k ∉ message_keys -> boosts !! k = None)
  /\ (forall c, boosts !! (c +:+ "_weight") = None).
Proof.
  intros boosts. subst boosts. repeat split.
  - intros k Hk. rewrite message_boosts_lookup. by rewrite bool_decide_eq_true_2.
  - intros k Hk. rewrite message_boosts_lookup. by rewrite bool_decide_eq_false_2.
  - intros c. rewrite message_boosts_lookup. rewrite bool_decide_eq_false_2; [done|].
    intros Hk. unfold message_keys in Hk.
    repeat (apply elem_of_cons in Hk as [Hk|Hk];
            [symmetry in Hk; revert Hk; by apply not_weight_key|]).
    by apply elem_of_nil in Hk.
Qed.

Lemma X19_message_boosts_witness :
  msg_boosts (master_message example_record ∅ "2024-06-01T12:00:00")
    !! "physics_final_boost" = Some 0%Q.
Proof.
  refine (proj1 (X19_message_boosts example_record ∅ "2024-06-01T12:00:00")
                "physics_final_boost" _).
  unfold message_keys. repeat constructor.
Defined.

Lemma result_lacks_untracked_final_boost (config : Config) (now : datetime)
    (record : Record_) (boost_factors : BoostFactors) (c : string) :
  compute_boost_factors config now record = Ok boost_factors ->
  c ∉ default default_collections (COLLECTIONS config) ->
  boost_factors !! (c +:+ "_final_boost") = None.
Proof.
  intros H Hc.
  apply compute_boost_factors_inv in H
    as (d & r & nw & b & cw & fb & _ & _ & _ & _ & Hcw & Hfb & ->).
  unfold update.
  rewrite lookup_union_r.
  - rewrite lookup_union_r.
    + rewrite lookup_insert_ne by apply boost_factor_not_final_boost.
      rewrite !lookup_insert_ne; [apply lookup_empty|..];
        by apply not_final_boost_key.
    + eapply collection_weights_only_weight_keys; [exact Hcw|].
      intros c' E. symmetry in E. by apply weight_key_not_final_boost_key in E.
  - destruct (fb !! (c +:+ "_final_boost")) as [v|] eqn:E; [|done].
    destruct (final_boosts_lookup config record _ fb _ v Hfb E) as (c' & Hc' & Hk).
    apply append_inj_r in Hk. by subst c'.
Qed.

(** X20. With the six disciplines of the message among [COLLECTIONS], a message
    made from a result of the scoring call carries, under each of its ten
    keys, the value that the result has there: no 0.0 stands in. *)
Theorem X20_message_carries_result (config : Config) (now : datetime)
    (record : Record_) (boost_factors : BoostFactors) (timestamp : string) (k : string) :
  compute_boost_factors config now record = Ok boost_factors ->
  (forall c, c ∈ default_collections ->
             c ∈ default default_collections (COLLECTIONS config)) ->
  k ∈ message_keys ->
  msg_boosts (master_message record boost_factors timestamp) !! k
  = boost_factors !! k
  /\ is_Some (boost_factors !! k).
Proof.
  intros H Hsix Hk.
  rewrite message_boosts_lookup, bool_decide_eq_true_2 by done.
  pose proof (boost_factors_fields config now record boost_factors H)
    as (Hr & Hd & Hc & Hb & Hall).
  assert (is_Some (boost_factors !! k)) as [v Hv].
  { assert (forall c, c ∈ default_collections ->
              is_Some (boost_factors !! (c +:+ "_final_boost"))) as Hfinal.
    { intros c Hin. by apply Hall, Hsix. }
    unfold message_keys in Hk.
    apply elem_of_cons in Hk as [->|Hk];
      [destruct (boost_factors !! "doctype_boost"); [by eexists | done]|].
    apply elem_of_cons in Hk as [->|Hk]; [by eexists|].
    apply elem_of_cons in Hk as [->|Hk];
      [destruct (boost_factors !! "recency_boost"); [by eexists | done]|].
    apply elem_of_cons in Hk as [->|Hk]; [done|].
    apply elem_of_cons in Hk as [->|Hk];
      [apply (Hfinal "astronomy"); unfold default_collections; repeat constructor|].
    apply elem_of_cons in Hk as [->|Hk];
      [apply (Hfinal "physics"); unfold default_collections; repeat constructor|].
    apply elem_of_cons in Hk as [->|Hk];
      [apply (Hfinal "earth_science"); unfold default_collections; repeat constructor|].
    apply elem_of_cons in Hk as [->|Hk];
      [apply (Hfinal "planetary_science"); unfold default_collections;
       repeat constructor|].
    apply elem_of_cons in Hk as [->|Hk];
      [apply (Hfinal "heliophysics"); unfold default_collections; repeat constructor|].
    apply elem_of_cons in Hk as [->|Hk];
      [apply (Hfinal "general"); unfold default_collections; repeat constructor|].
    by apply elem_of_nil in Hk. }
  unfold get_or_zero. rewrite Hv. split; [done | by eexists].
Qed.

Lemma X20_message_carries_result_witness :
  exists boost_factors,
    compute_boost_factors example_config (midday 2024 6 1) example_record
    = Ok boost_factors
    /\ msg_boosts (master_message example_record boost_factors "2024-06-01T12:00:00")
         !! "physics_final_boost"
       = boost_factors !! "physics_final_boost".
Proof.
  destruct example_scoring_returns as [boost_factors E].
  exists boost_factors. split; [exact E|].
  refine (proj1 (X20_message_carries_result example_config (midday 2024 6 1) example_record
                   boost_factors "2024-06-01T12:00:00" "physics_final_boost" E _ _)).
  - intros c Hc. exact Hc.
  - unfold message_keys. repeat constructor.
Defined.

(** X21. A discipline of the message that [COLLECTIONS] does not track is sent
    with a final boost of 0.0. *)
Theorem X21_message_zero_for_untracked_discipline (config : Config) (now : datetime)
    (record : Record_) (boost_factors : BoostFactors) (timestamp : string) (c : string) :
  compute_boost_factors config now record = Ok boost_factors ->
  c ∈ default_collections ->
  c ∉ default default_collections (COLLECTIONS config) ->
  msg_boosts (master_message record boost_factors timestamp) !! (c +:+ "_final_boost")
  = Some 0%Q.
Proof.
  intros H Hc Hn.
  rewrite message_boosts_lookup.
  unfold get_or_zero.
  rewrite (result_lacks_untracked_final_boost config now record boost_factors c H Hn).
  rewrite bool_decide_eq_true_2; [done|].
  unfold default_collections in Hc. unfold message_keys.
  repeat (apply elem_of_cons in Hc as [->|Hc]; [repeat constructor|]).
  by apply elem_of_nil in Hc.
Qed.

(** X22. The message names the record as the guard of [process_boost_request]
    saw it: when the [bibcode] resolves there, the message carries that
    [bibcode]. *)
Theorem X22_message_bibcode_is_resolved (record : Record_) (boost_factors : BoostFactors)
    (timestamp : string) :
  truthy (resolve (bibcode record) record bd_bibcode) = true ->
  msg_bibcode (master_message record boost_factors timestamp)
  = resolve (bibcode record) record bd_bibcode.
Proof.
  unfold master_message, resolve, resolve_get. simpl.
  destruct (truthy (bibcode record)) eqn:Et; simpl; [done|].
  destruct (bib_data record) as [bd|]; [|done].
  destruct (bd_bibcode bd) as [b|]; simpl; [done|]. discriminate.
Qed.

Lemma X22_message_bibcode_is_resolved_witness :
  msg_bibcode (master_message (with_tags None None) ∅ "2024-06-01T12:00:00")
  = Some "2024ApJ...000..001A".
Proof.
  by apply (X22_message_bibcode_is_resolved (with_tags None None) ∅ "2024-06-01T12:00:00").
Defined.

Lemma X21_message_zero_for_untracked_discipline_witness :
  exists boost_factors,
    compute_boost_factors astronomy_only_config (midday 2024 6 1) example_record
    = Ok boost_factors
    /\ msg_boosts (master_message example_record boost_factors "2024-06-01T12:00:00")
         !! ("physics" +:+ "_final_boost") = Some 0%Q.
Proof.
  destruct (compute_boost_factors_returns astronomy_only_config (midday 2024 6 1)
              example_record default_weights 1%Q (30440 # 45640)%Q)
    as [boost_factors E].
  - reflexivity.
  - apply default_weights_nonneg.
  - vm_compute. reflexivity.
  - vm_compute. reflexivity.
  - reflexivity.
  - by eexists.
  - by eexists.
  - by eexists.
  - exists boost_factors. split; [exact E|].
    refine (X21_message_zero_for_untracked_discipline astronomy_only_config
              (midday 2024 6 1) example_record boost_factors _ "physics" E _ _).
    + unfold default_collections. repeat constructor.
    + intros H. apply list_elem_of_In in H. destruct H as [H|[]]. discriminate H.
Defined.

(** ** Batches *)

Lemma batch_loop_trace (batch_size : Z) (rest : list string)
    (batch : list Record_) (w : list (list Record_)) :
  Z.of_nat (length batch) < Z.max 1 batch_size ->
  exists fulls last,
    batch_loop record_batch batch_size rest batch w = (Ok last, (w ++ fulls)%list)
    /\ (concat fulls ++ last = batch ++ map minimal_record rest)%list
    /\ Forall (fun b => Z.of_nat (length b) = Z.max 1 batch_size) fulls
    /\ Z.of_nat (length last) < Z.max 1 batch_size.
Proof.
  revert batch w. induction rest as [|b rest IH]; intros batch w Hinv.
  - exists [], batch. simpl. rewrite !app_nil_r. by repeat split.
  - simpl.
    destruct (batch_size <=? Z.of_nat (length (batch ++ [minimal_record b])))
      eqn:E.
    + apply Z.leb_le in E. rewrite length_app in E. simpl in E.
      destruct (IH [] (w ++ [batch ++ [minimal_record b]])%list)
        as (fulls & last & Hloop & Hcat & Hfull & Hlast); [simpl; lia|].
      exists ((batch ++ [minimal_record b]) :: fulls)%list, last.
      change (record_batch (batch ++ [minimal_record b]) w)
        with (Ok tt, (w ++ [batch ++ [minimal_record b]])%list).
      cbv beta iota. rewrite Hloop.
      split; [by rewrite <- app_assoc|]. split.
      * simpl. rewrite <- app_assoc, Hcat. simpl. by rewrite <- app_assoc.
      * split; [|done]. constructor; [|done].
        rewrite length_app. simpl. lia.
    + apply Z.leb_gt in E. rewrite length_app in E. simpl in E.
      destruct (IH (batch ++ [minimal_record b])%list w)
        as (fulls & last & Hloop & Hcat & Hfull & Hlast).
      { rewrite length_app. simpl. lia. }
      exists fulls, last. split; [done|]. split; [|done].
      rewrite Hcat. by rewrite <- app_assoc.
Qed.

Lemma submitted_batches_shape (bibcodes : list string) (batch_size : Z) :
  exists fulls last,
    submitted_batches bibcodes batch_size
    = (fulls ++ match last with [] => [] | _ => [last] end)%list
    /\ (concat fulls ++ last = map minimal_record bibcodes)%list
    /\ Forall (fun b => Z.of_nat (length b) = Z.max 1 batch_size) fulls
    /\ Z.of_nat (length last) < Z.max 1 batch_size.
Proof.
  unfold submitted_batches, process_bibcodes_in_batches.
  destruct bibcodes as [|b rest].
  - exists [], []. simpl. repeat split; [constructor | lia].
  - destruct (batch_loop_trace batch_size (b :: rest) [] [])
      as (fulls & last & Hloop & Hcat & Hfull & Hlast); [simpl; lia|].
    exists fulls, last. split; [|done].
    change (fun batch (w : list (list Record_)) => (Ok tt, (w ++ [batch])%list))
      with record_batch.
    rewrite Hloop. destruct last; simpl; [by rewrite app_nil_r | done].
Qed.

(** X23. The batches handed to [process_batch] hold, in order, one record for
    each identifier: none is lost and none comes twice. *)
Theorem X23_batches_cover_identifiers (bibcodes : list string) (batch_size : Z) :
  concat (submitted_batches bibcodes batch_size) = map minimal_record bibcodes.
Proof.
  destruct (submitted_batches_shape bibcodes batch_size)
    as (fulls & last & -> & Hcat & _ & _).
  rewrite concat_app, <- Hcat. f_equal.
  destruct last; simpl; [done | by rewrite app_nil_r].
Qed.

(** X24. No batch is empty, none is longer than [batch_size], and every batch
    but the last has [batch_size] records; a [batch_size] of zero or less
    gives batches of one record. *)
Theorem X24_batches_sizes (bibcodes : list string) (batch_size : Z)
    (i : nat) (batch : list Record_) :
  submitted_batches bibcodes batch_size !! i = Some batch ->
  1 <= Z.of_nat (length batch) <= Z.max 1 batch_size
  /\ ((S i < length (submitted_batches bibcodes batch_size))%nat ->
      Z.of_nat (length batch) = Z.max 1 batch_size).
Proof.
  destruct (submitted_batches_shape bibcodes batch_size)
    as (fulls & last & -> & _ & Hfull & Hlast).
  intros Hi. apply lookup_app_Some in Hi as [Hi|[Hge Hi]].
  - eapply Forall_lookup_1 in Hfull; [|exact Hi]. simpl in Hfull. lia.
  - destruct last as [|r last]; [done|].
    apply list_lookup_singleton_Some in Hi as [Hi <-].
    split; [simpl in *; lia|].
    rewrite length_app. simpl. lia.
Qed.

Lemma X24_batches_sizes_witness :
  1 <= Z.of_nat (length [minimal_record "a"; minimal_record "b"]) <= Z.max 1 2
  /\ ((S 0 < length (submitted_batches ["a"; "b"; "c"] 2))%nat ->
      Z.of_nat (length [minimal_record "a"; minimal_record "b"]) = Z.max 1 2).
Proof.
  apply (X24_batches_sizes ["a"; "b"; "c"] 2 0). reflexivity.
Defined.


(** X26. The identifier that [process_file] takes from a record is its [bibcode],
    or its [scix_id] when it has no [bibcode]; a record with neither gives
    none, and no identifier is empty. *)
Theorem X26_file_identifiers_elem (records : list Record_) (b : string) :
  b ∈ file_identifiers records
  <-> exists record,
        record ∈ records /\ b <> ""
        /\ (bibcode record = Some b
            \/ (truthy (bibcode record) = false /\ scix_id record = Some b)).
Proof.
  unfold file_identifiers. rewrite list_elem_of_omap. split.
  - intros (record & Hin & H). exists record. split; [done|].
    unfold py_or in H. destruct (truthy (bibcode record)) eqn:Et.
    + rewrite Et in H. split; [|by left].
      rewrite H in Et. simpl in Et. intros ->. done.
    + destruct (truthy (scix_id record)) eqn:Es; [|done]. rewrite H in Es.
      split; [|by right]. simpl in Es. intros ->. done.
  - intros (record & Hin & Hne & H). exists record. split; [done|].
    assert (truthy (Some b) = true) as Hb.
    { simpl. apply negb_true_iff. by apply String.eqb_neq. }
    unfold py_or. destruct H as [H|[Ht H]].
    + by rewrite H, Hb, Hb.
    + by rewrite Ht, H, Hb.
Qed.

Lemma X26_file_identifiers_elem_witness :
  "scix:0000-0000-0001" ∈ file_identifiers [empty_record; scix_only_record].
Proof.
  apply (proj2 (X26_file_identifiers_elem [empty_record; scix_only_record]
                  "scix:0000-0000-0001")).
  exists scix_only_record. split; [repeat constructor|].
  split; [discriminate|]. right. by split.
Defined.

(** ** The records of a batch, scored *)

(** A record that [process_bibcodes_in_batches] makes has the tag "general",
    so each of its collection weights is 1.0. *)
Lemma minimal_record_collection_weights (config : Config) (b : string) :
  compute_collection_weights config (minimal_record b)
  = Ok (all_ones (default default_collections (COLLECTIONS config))).
Proof.
  destruct (compute_collection_weights_cases config (minimal_record b))
    as (val & -> & [[-> _]|(_ & _ & Hgen & _)]); [done|].
  exfalso. apply Hgen. simpl. apply list_elem_of_here.
Qed.

(** X27. A record that [process_bibcodes_in_batches] makes carries no
    content: whatever the configuration, its refereed boost is 0.0, its
    doctype is the empty label, its recency boost is 1.0 and each of its
    collection weights is 1.0. *)
Theorem X27_batch_record_scores (config : Config) (now : datetime) (b : string) :
  compute_refereed_boost (minimal_record b) = 0%Q
  /\ record_doctype (minimal_record b) = ""
  /\ compute_recency_boost config now (minimal_record b) = Ok 1%Q
  /\ compute_collection_weights config (minimal_record b)
     = Ok (all_ones (default default_collections (COLLECTIONS config))).
Proof.
  split; [reflexivity|]. split; [reflexivity|]. split; [reflexivity|].
  apply minimal_record_collection_weights.
Qed.

(** X28. So every final boost of such a record is its [boost_factor] (times the
    weight 1.0), when the configured weights have a positive sum. *)
Theorem X28_batch_record_final_boosts (config : Config) (now : datetime) (b : string)
    (boost_factors : BoostFactors) (discipline : string) :
  (0 < sum_values (default ∅ (BOOST_FACTOR_WEIGHTS config)))%Q ->
  compute_boost_factors config now (minimal_record b) = Ok boost_factors ->
  discipline ∈ default default_collections (COLLECTIONS config) ->
  exists boost_factor,
    boost_factors !! "boost_factor" = Some boost_factor
    /\ boost_factors !! (discipline +:+ "_final_boost") = Some (1 * boost_factor)%Q.
Proof.
  intros Hpos H Hd.
  destruct (final_boost_is_weight_times_boost_factor config now (minimal_record b)
              boost_factors discipline Hpos H Hd) as (w & bf & Hw & Hbf & Hf).
  pose proof (boost_factors_fields config now (minimal_record b) boost_factors H)
    as (_ & _ & _ & _ & Hall).
  destruct (Hall discipline Hd) as (_ & cw & w' & Hcw & Hw' & Hw'').
  rewrite Hw in Hw''. injection Hw'' as <-.
  rewrite (minimal_record_collection_weights config b) in Hcw. injection Hcw as <-.
  rewrite (all_ones_lookup _ discipline Hd) in Hw'. injection Hw' as <-.
  exists bf. by split.
Qed.

Lemma X28_batch_record_final_boosts_witness :
  exists boost_factors boost_factor,
    compute_boost_factors example_config (midday 2024 6 1)
      (minimal_record "2024ApJ...000..001A") = Ok boost_factors
    /\ boost_factors !! "boost_factor" = Some boost_factor
    /\ boost_factors !! ("physics" +:+ "_final_boost") = Some (1 * boost_factor)%Q.
Proof.
  destruct (compute_boost_factors_returns example_config (midday 2024 6 1)
              (minimal_record "2024ApJ...000..001A") default_weights 0%Q 1%Q)
    as [boost_factors E].
  - reflexivity.
  - apply default_weights_nonneg.
  - vm_compute. reflexivity.
  - reflexivity.
  - reflexivity.
  - by eexists.
  - by eexists.
  - by eexists.
  - destruct (X28_batch_record_final_boosts example_config (midday 2024 6 1)
                "2024ApJ...000..001A" boost_factors "physics")
      as (bf & H1 & H2);
      [reflexivity | exact E | unfold default_collections; repeat constructor |].
    exists boost_factors, bf. split; [exact E|]. split; [exact H1 | exact H2].
Defined.

(** ** Reading identifiers *)

Lemma rstrip_cons_not_space (c : ascii) (t : string) :
  is_space c = false -> rstrip (String c t) = String c (rstrip t).
Proof. intros Hc. simpl. rewrite Hc. by destruct (rstrip t). Qed.

Lemma rstrip_idempotent (s : string) : rstrip (rstrip s) = rstrip s.
Proof.
  induction s as [|c t IH]; [done|]. simpl.
  destruct (rstrip t) as [|c' t'] eqn:E.
  - destruct (is_space c) eqn:Ec; [done|]. simpl. by rewrite Ec.
  - change (rstrip (String c (String c' t')))
      with (match rstrip (String c' t') with
            | EmptyString => if is_space c then EmptyString else String c EmptyString
            | t'' => String c t''
            end).
    by rewrite IH.
Qed.

Lemma lstrip_cases (s : string) :
  lstrip s = "" \/ exists c t, lstrip s = String c t /\ is_space c = false.
Proof.
  induction s as [|c t IH]; [by left|]. simpl.
  destruct (is_space c) eqn:Ec; [done|]. right. by exists c, t.
Qed.

Lemma strip_idempotent (s : string) : strip (strip s) = strip s.
Proof.
  unfold strip.
  assert (lstrip (rstrip (lstrip s)) = rstrip (lstrip s)) as ->.
  { destruct (lstrip_cases s) as [->|(c & t & -> & Hc)]; [done|].
    rewrite rstrip_cons_not_space by done. simpl. by rewrite Hc. }
  apply rstrip_idempotent.
Qed.

Lemma read_bibcodes_filter (lines : list string) :
  read_bibcodes_from_file (Some lines)
  = filter (fun b => negb (String.eqb b "") && negb (is_comment b) = true)
           (map strip lines).
Proof.
  unfold read_bibcodes_from_file.
  assert (forall acc,
            foldl (fun bibcodes line =>
                     let bibcode := strip line in
                     if negb (String.eqb bibcode "") && negb (is_comment bibcode)
                     then (bibcodes ++ [bibcode])%list else bibcodes) acc lines
            = (acc ++ filter (fun b => negb (String.eqb b "")
                                       && negb (is_comment b) = true)
                        (map strip lines))%list) as H.
  { induction lines as [|line lines IH]; intros acc; simpl.
    - by rewrite app_nil_r.
    - rewrite IH. rewrite filter_cons.
      destruct (negb (String.eqb (strip line) "") && negb (is_comment (strip line)))
        eqn:E.
      + rewrite decide_True by done. by rewrite <- app_assoc.
      + rewrite decide_False by (intros E'; congruence). done. }
  by rewrite H.
Qed.

(** X29. [read_bibcodes_from_file] returns the lines of the file, stripped of the
    white space around them, that are then neither empty nor comments, in the
    order of the file; what it returns needs no further stripping. *)
Theorem X29_read_bibcodes_elem (lines : list string) (b : string) :
  b ∈ read_bibcodes_from_file (Some lines)
  <-> (exists line, line ∈ lines /\ b = strip line)
      /\ b <> "" /\ is_comment b = false /\ strip b = b.
Proof.
  rewrite read_bibcodes_filter, list_elem_of_filter. split.
  - intros [Hk Hin].
    apply list_elem_of_In, in_map_iff in Hin as (line & <- & Hin).
    apply list_elem_of_In in Hin.
    apply andb_true_iff in Hk as [Hne Hc].
    apply negb_true_iff in Hne, Hc. apply String.eqb_neq in Hne.
    split; [by exists line|]. split; [done|]. split; [done|].
    apply strip_idempotent.
  - intros ((line & Hin & ->) & Hne & Hc & _). split.
    + apply andb_true_iff. split; apply negb_true_iff; [|done].
      by apply String.eqb_neq.
    + by apply list_elem_of_In, in_map, list_elem_of_In.
Qed.

Lemma X29_read_bibcodes_elem_witness :
  "2024ApJ...000..001A"
  ∈ read_bibcodes_from_file
      (Some ["# identifiers"; ""; "  2024ApJ...000..001A "; "   # none"]).
Proof.
  apply (proj2 (X29_read_bibcodes_elem
                  ["# identifiers"; ""; "  2024ApJ...000..001A "; "   # none"]
                  "2024ApJ...000..001A")).
  split; [|by repeat split].
  exists "  2024ApJ...000..001A ". split; [repeat constructor | reflexivity].
Defined.
